(** * Cost-model analysis of the [udf_overhead] benchmark

    A shallow embedding of
    [python-tooling/src/datafusion_udf_wasm_tooling/analyze_udf_overhead_bench.py]
    and the properties its specification states about it.

    Conventions of the embedding:
    - Python exceptions are values of [exn]; a computation that may raise has
      type [result A].
    - Python [int] is [Z].  The integer columns of a polars frame are
      [Int64]: arithmetic on them wraps around ([wrap_int64]).
    - Python and numpy [float] are exact rationals [Q], so rounding, infinities
      and overflow are outside the model.  The one place where the script can
      obtain a not-a-number without any rounding ([r2_score] on fewer than two
      samples) is kept, as the value [NaN] of [pyfloat].
    - The numeric library calls whose result is not rational or is computed by
      an iterative solver (the standard deviation inside [StandardScaler], the
      non-negative least-squares solver inside [LinearRegression]) are
      parameters of the development; where a property needs their documented
      contract, it is a hypothesis.  [json.loads] and the type inference of
      the [pl.DataFrame] constructor are parameters as well.

    The file has three parts: the program, the vocabulary in which its
    properties are stated, and the properties with their proofs. *)

From Stdlib Require Import ZArith QArith List String Ascii Bool Lia Lqa.
From Stdlib Require Import Qround Permutation Sorted.
Import ListNotations.

Set Warnings "-register-all".

Open Scope string_scope.
Open Scope list_scope.
Open Scope Z_scope.

(* ------------------------------------------------------------------ *)
(** * Exceptions *)

Inductive exn : Type :=
| ValueError
| AssertionError
| KeyError
| TypeError
| JSONDecodeError
| ZeroDivisionError
| OutOfBoundsError
| ReferenceError.

Inductive result (A : Type) : Type :=
| Ok (a : A)
| Raise (e : exn).

Arguments Ok {A} a.
Arguments Raise {A} e.

Definition bind {A B : Type} (c : result A) (k : A -> result B) : result B :=
  match c with
  | Ok a => k a
  | Raise e => Raise e
  end.

Notation "x <- c ;; k" := (bind c (fun x => k))
  (at level 61, c at next level, right associativity).

Definition raises {A : Type} (c : result A) : Prop := exists e, c = Raise e.

(* ------------------------------------------------------------------ *)
(** * [class Metric(Enum)] *)

Inductive Metric : Type :=
| cycles
| instructions.

Definition Metric_eqb (a b : Metric) : bool :=
  match a, b with
  | cycles, cycles => true
  | instructions, instructions => true
  | _, _ => false
  end.

(** [Metric.value], also what [__str__] returns. *)
Definition Metric_value (self : Metric) : string :=
  match self with
  | cycles => "cycles"
  | instructions => "instructions"
  end.

(** [Metric.valgrind_name]: the [match] statement tries its value patterns in
    order and falls through to the wildcard case, which raises. *)
Definition valgrind_name (self : Metric) : result string :=
  if Metric_eqb self cycles then Ok "EstimatedCycles"
  else if Metric_eqb self instructions then Ok "Ir"
  else Raise ValueError.

(** [Metric(value)], the call [argparse] makes for [type=Metric]: the member
    with that value, or a [ValueError]. *)
Definition Metric_of_value (value : string) : result Metric :=
  if String.eqb value "cycles" then Ok cycles
  else if String.eqb value "instructions" then Ok instructions
  else Raise ValueError.

(* ------------------------------------------------------------------ *)
(** * Values decoded from JSON *)

(** What [json.loads] returns: [None], [bool], [int], [float], [str], [list]
    and [dict] with string keys.  A [dict] is kept as an association list that
    is searched from the front. *)
Inductive pyval : Type :=
| PNone
| PBool (b : bool)
| PInt (z : Z)
| PFloat (q : Q)
| PStr (s : string)
| PList (l : list pyval)
| PDict (d : list (string * pyval)).

Fixpoint dict_get (d : list (string * pyval)) (k : string) : option pyval :=
  match d with
  | [] => None
  | (k', v) :: d' => if String.eqb k' k then Some v else dict_get d' k
  end.

(** [v[k]] for a string key [k]: a missing key is a [KeyError]; indexing
    anything but a [dict] with a string is a [TypeError]. *)
Definition getitem (v : pyval) (k : string) : result pyval :=
  match v with
  | PDict d =>
      match dict_get d k with
      | Some x => Ok x
      | None => Raise KeyError
      end
  | _ => Raise TypeError
  end.

(** [[profile] = v]: unpacking into a one-element target list.  A list, a
    string and a dict are iterable (a dict yields its keys, a string its
    characters); anything else is a [TypeError]; a wrong number of elements is
    a [ValueError]. *)
Definition unpack_single (v : pyval) : result pyval :=
  match v with
  | PList [x] => Ok x
  | PList _ => Raise ValueError
  | PStr (String c EmptyString) => Ok (PStr (String c EmptyString))
  | PStr _ => Raise ValueError
  | PDict [(k, _)] => Ok (PStr k)
  | PDict _ => Raise ValueError
  | _ => Raise TypeError
  end.

(* ------------------------------------------------------------------ *)
(** * The two regular expressions *)

Definition is_lower (c : ascii) : bool :=
  let n := N_of_ascii c in (N.leb 97 n && N.leb n 122)%bool.

Definition is_digit (c : ascii) : bool :=
  let n := N_of_ascii c in (N.leb 48 n && N.leb n 57)%bool.

(** Matching a literal at the front of the subject; the rest of the subject
    is returned. *)
Fixpoint strip_prefix (p s : string) : option string :=
  match p with
  | EmptyString => Some s
  | String a p' =>
      match s with
      | String b s' => if Ascii.eqb a b then strip_prefix p' s' else None
      | EmptyString => None
      end
  end.

(** The longest run of characters of a class at the front of the subject,
    with the rest: what a greedy [[...]+] consumes. *)
Fixpoint span (f : ascii -> bool) (s : string) : string * string :=
  match s with
  | String c s' =>
      if f c then let (a, b) := span f s' in (String c a, b)
      else (EmptyString, s)
  | EmptyString => (EmptyString, EmptyString)
  end.

(** [re.compile("bench_(?P<mode>[a-z]+)").match(s)], reduced to its group
    [mode].  [match] anchors at the start of [s] only; the greedy class takes
    every lowercase letter that follows the literal and needs at least one. *)
Definition fn_re_match (s : string) : option string :=
  match strip_prefix "bench_" s with
  | Some rest =>
      match fst (span is_lower rest) with
      | EmptyString => None
      | mode => Some mode
      end
  | None => None
  end.

(** [re.compile("batchsize_(?P<batchsize>[0-9]+)_batches_(?P<batches>[0-9]+)").match(s)],
    reduced to its groups [(batchsize, batches)].  The first digit run must be
    the longest one: after giving back a digit the next character would be a
    digit, not the underscore the pattern asks for. *)
Definition id_re_match (s : string) : option (string * string) :=
  match strip_prefix "batchsize_" s with
  | Some r1 =>
      match span is_digit r1 with
      | (EmptyString, _) => None
      | (batchsize, r2) =>
          match strip_prefix "_batches_" r2 with
          | Some r3 =>
              match fst (span is_digit r3) with
              | EmptyString => None
              | batches => Some (batchsize, batches)
              end
          | None => None
          end
      end
  | None => None
  end.

(** [pattern.match(v)]: the subject has to be a [str]. *)
Definition re_match {G : Type} (re : string -> option G) (v : pyval)
  : result (option G) :=
  match v with
  | PStr s => Ok (re s)
  | _ => Raise TypeError
  end.

(** [assert x] followed by the use of [x]. *)
Definition assert_some {G : Type} (x : option G) : result G :=
  match x with
  | Some g => Ok g
  | None => Raise AssertionError
  end.

(** The value of a string of decimal digits, the only strings the script
    passes to [int]. *)
Definition digit_value (c : ascii) : Z := Z.of_N (N_of_ascii c) - 48.

Fixpoint int_digits_from (acc : Z) (s : string) : Z :=
  match s with
  | EmptyString => acc
  | String c s' => int_digits_from (10 * acc + digit_value c) s'
  end.

Definition int_of_digits (s : string) : Z := int_digits_from 0 s.

(** The interpreter converts decimal numerals of at most this many digits
    (the default of [sys.get_int_max_str_digits()]) and answers a longer one
    with a [ValueError]. *)
Definition max_str_digits : nat := 4300.

(** [int(s)] on a string of decimal digits. *)
Definition py_int_of_str (s : string) : result Z :=
  if (max_str_digits <? String.length s)%nat then Raise ValueError
  else Ok (int_of_digits s).

(* ------------------------------------------------------------------ *)
(** * Frames *)

(** The frame [parse_data] returns: columns [mode], [batchsize], [batches],
    [cost].  A frame is the list of its rows.  A cell of [cost] is kept as
    the value the frame was built from, whatever its type; the frame shows
    it at the type of its column (an [int] in a column of floats as the
    float of the same value). *)
Module Observation.
Record row : Type := mk {
  mode : string;
  batchsize : Z;
  batches : Z;
  cost : pyval
}.
End Observation.

(** The frame [regression] is given, with a numeric [cost] column. *)
Module Input.
Record row : Type := mk {
  mode : string;
  batchsize : Z;
  batches : Z;
  cost : Q
}.
End Input.

(** The frame after [with_columns(... .alias("totalrows"))]. *)
Module Extended.
Record row : Type := mk {
  mode : string;
  batchsize : Z;
  batches : Z;
  cost : Q;
  totalrows : Z
}.
End Extended.

(** A Python [float] as the script can see it in exact arithmetic. *)
Inductive pyfloat : Type :=
| Fin (q : Q)
| NaN.

(** The frame [regression] returns. *)
Module CostModel.
Record row : Type := mk {
  mode : string;
  cost_row : Z;
  cost_call : Z;
  cost_cached : Z;
  score : pyfloat
}.

(** [df.columns], in the order of the dict the frame is built from. *)
Definition columns : list string :=
  ["mode"; "cost_row"; "cost_call"; "cost_cached"; "score"].
End CostModel.

(** The frame [calc_delta] returns: columns [mode], [baseline] and one column
    per key of [deltas], here kept per row in the order of the keys. *)
Module Delta.
Record row (T : Type) : Type := mk {
  mode : string;
  baseline : string;
  deltas : list (string * T)
}.
Arguments mk {T} _ _ _.
Arguments mode {T} _.
Arguments baseline {T} _.
Arguments deltas {T} _.
End Delta.

(* ------------------------------------------------------------------ *)
(** * [parse_data] *)

(** One parsed line, before the frame is built: the values appended to the
    lists [mode], [batchsize], [batches] and [cost].  The four lists grow in
    lockstep, one element each per line, so they are kept as one list of
    quadruples. *)
Definition parsed_line : Type := (string * Z * Z * pyval)%type.

(** [profile["summaries"]["total"]["summary"]["Callgrind"][valgrind_metric]["metrics"]["Left"]["Int"]] *)
Definition profile_cost (profile : pyval) (valgrind_metric : string)
  : result pyval :=
  v <- getitem profile "summaries" ;;
  v <- getitem v "total" ;;
  v <- getitem v "summary" ;;
  v <- getitem v "Callgrind" ;;
  v <- getitem v valgrind_metric ;;
  v <- getitem v "metrics" ;;
  v <- getitem v "Left" ;;
  getitem v "Int".

(** The row of the frame built from the values of one line. *)
Definition row_of (r : parsed_line) : Observation.row :=
  let '(m, bs, b, c) := r in Observation.mk m bs b c.

Section ParseData.

(** [json.loads], applied to one line of the file. *)
Variable json_loads : string -> result pyval.

(** The exception [pl.DataFrame] raises, if any, while it infers the types
    of the four columns from the lists it is given.  The inference is the
    library's: the type of a column is fixed by its first values, and a later
    value that does not fit it is an error. *)
Variable dtype_error : list parsed_line -> option exn.

(** [pl.DataFrame({"mode": mode, "batchsize": batchsize, "batches": batches, "cost": cost})] *)
Definition DataFrame (rows : list parsed_line)
  : result (list Observation.row) :=
  match dtype_error rows with
  | Some e => Raise e
  | None => Ok (map row_of rows)
  end.

(** The body of the [for line in fp] loop. *)
Definition parse_line (valgrind_metric : string) (line : string)
  : result parsed_line :=
  data <- json_loads line ;;
  fn <- getitem data "function_name" ;;
  fn_parsed <- re_match fn_re_match fn ;;
  mode <- assert_some fn_parsed ;;
  id <- getitem data "id" ;;
  id_parsed <- re_match id_re_match id ;;
  groups <- assert_some id_parsed ;;
  bs <- py_int_of_str (fst groups) ;;
  b <- py_int_of_str (snd groups) ;;
  profiles <- getitem data "profiles" ;;
  profile <- unpack_single profiles ;;
  c <- profile_cost profile valgrind_metric ;;
  Ok (mode, bs, b, c).

Fixpoint parse_lines (valgrind_metric : string) (fp : list string)
    (acc : list parsed_line) : result (list parsed_line) :=
  match fp with
  | [] => Ok acc
  | line :: fp' =>
      r <- parse_line valgrind_metric line ;;
      parse_lines valgrind_metric fp' (acc ++ [r])
  end.

(** [parse_data(file, metric)]; [file] is given by its lines. *)
Definition parse_data (file : list string) (metric : Metric)
  : result (list Observation.row) :=
  valgrind_metric <- valgrind_name metric ;;
  rows <- parse_lines valgrind_metric file [] ;;
  DataFrame rows.

End ParseData.

(* ------------------------------------------------------------------ *)
(** * Lists of strings: [unique] and [sorted] *)

(** [Series.unique(maintain_order=True)]: the first occurrence of every value,
    in the order of the series.  Plain [unique()] promises no order; the
    script sorts its result, so the same function serves. *)
Fixpoint unique (l : list string) : list string :=
  match l with
  | [] => []
  | x :: l' => x :: filter (fun y => negb (String.eqb y x)) (unique l')
  end.

Fixpoint insert_sorted (x : string) (l : list string) : list string :=
  match l with
  | [] => [x]
  | y :: l' => if String.leb x y then x :: l else y :: insert_sorted x l'
  end.

(** [sorted(l)] on strings. *)
Fixpoint sorted (l : list string) : list string :=
  match l with
  | [] => []
  | x :: l' => insert_sorted x (sorted l')
  end.

(* ------------------------------------------------------------------ *)
(** * Numeric helpers *)

Open Scope Q_scope.

(** A row of the design matrix: the columns [totalrows], [batches] and the
    constant column added by [np.hstack]; also a vector of three
    coefficients or scales. *)
Definition vec3 : Type := (Q * Q * Q)%type.

Definition c0 (v : vec3) : Q := fst (fst v).
Definition c1 (v : vec3) : Q := snd (fst v).
Definition c2 (v : vec3) : Q := snd v.

(** Element-wise division, as numpy broadcasts it over rows. *)
Definition vdiv (a b : vec3) : vec3 := (c0 a / c0 b, c1 a / c1 b, c2 a / c2 b).

Definition dot (a b : vec3) : Q := c0 a * c0 b + c1 a * c1 b + c2 a * c2 b.

Definition Qsum (l : list Q) : Q := fold_right Qplus 0 l.

Definition mean (l : list Q) : Q :=
  Qsum l / inject_Z (Z.of_nat (List.length l)).

Fixpoint sq_diffs (a b : list Q) : list Q :=
  match a, b with
  | x :: a', y :: b' => (x - y) * (x - y) :: sq_diffs a' b'
  | _, _ => []
  end.

(** The value of a polars [Int64] after an arithmetic operation whose exact
    result is [z]: polars does not check for overflow, the result is reduced
    to the 64-bit two's complement range [-2^63 .. 2^63 - 1]. *)
Definition wrap_int64 (z : Z) : Z :=
  ((z + 2 ^ 63) mod 2 ^ 64 - 2 ^ 63)%Z.

(** [int(x)] on a float: truncation towards zero. *)
Definition py_int (x : Q) : Z := Z.quot (Qnum x) (Z.pos (Qden x)).

(** [float(n)] on an int. *)
Definition py_float (n : Z) : Q := inject_Z n.

(** [max(a, b)]: the second argument only when it is strictly greater. *)
Definition py_max (a b : Q) : Q := if Qlt_le_dec a b then b else a.

(** [x / y] on floats. *)
Definition truediv (x y : Q) : result Q :=
  if Qeq_bool y 0 then Raise ZeroDivisionError else Ok (x / y).

(** The population variance of a column, and its square root where the
    reduced variance is a quotient of perfect squares: on such columns this is
    what [np.sqrt(var)] returns, and it is the instance of [column_std] used
    on the concrete frames below. *)
Definition variance (col : list Q) : Q :=
  let mu := mean col in mean (map (fun x => (x - mu) * (x - mu)) col).

Definition exact_sqrt (q : Q) : Q :=
  let r := Qred q in Z.sqrt (Qnum r) # Pos.sqrt (Qden r).

Definition exact_std (col : list Q) : Q := exact_sqrt (variance col).

(* ------------------------------------------------------------------ *)
(** * scikit-learn *)

(** [sklearn.metrics.r2_score(y_true, y_pred)] with its default
    [force_finite=True].  Its documentation: the metric is not well-defined
    for single samples and will return a NaN value if n_samples is less than
    two.  Otherwise it is [1 - numerator / denominator], with the two
    degenerate quotients replaced by [1.0] (perfect prediction) and [0.0]
    (constant target, imperfect prediction). *)
Definition r2_score (y_true y_pred : list Q) : pyfloat :=
  if (List.length y_pred <? 2)%nat then NaN
  else
    let numerator := Qsum (sq_diffs y_true y_pred) in
    let mu := mean y_true in
    let denominator := Qsum (map (fun y => (y - mu) * (y - mu)) y_true) in
    if Qeq_bool denominator 0 then
      (if Qeq_bool numerator 0 then Fin 1 else Fin 0)
    else
      (if Qeq_bool numerator 0 then Fin 1
       else Fin (1 - numerator / denominator)).

(** A fitted [LinearRegression]. *)
Record LinearRegression : Type := {
  coef_ : vec3;
  intercept_ : Q
}.

(** [reg.predict(X)] *)
Definition predict (reg : LinearRegression) (X : list vec3) : list Q :=
  map (fun x => dot x (coef_ reg) + intercept_ reg) X.

(** [reg.score(X, y)] *)
Definition LinearRegression_score (reg : LinearRegression) (X : list vec3)
    (y : list Q) : pyfloat :=
  r2_score y (predict reg X).

(** The residual sum of squares of a coefficient vector: what the solver
    minimises. *)
Definition rss (X : list vec3) (y : list Q) (c : vec3) : Q :=
  Qsum (sq_diffs y (map (fun x => dot x c) X)).

Definition nonneg3 (c : vec3) : Prop := 0 <= c0 c /\ 0 <= c1 c /\ 0 <= c2 c.

(** The contract of [LinearRegression(positive=True, fit_intercept=False)]
    for one problem: the coefficients are non-negative and no non-negative
    vector has a smaller residual sum of squares. *)
Definition nnls_solution (X : list vec3) (y : list Q) (c : vec3) : Prop :=
  nonneg3 c /\ forall c', nonneg3 c' -> rss X y c <= rss X y c'.

Section Regression.

(** [np.sqrt] of the population variance of a column, as [StandardScaler]
    computes it. *)
Variable column_std : list Q -> Q.

(** The coefficients [LinearRegression(positive=True, fit_intercept=False)]
    finds for a design matrix and a target. *)
Variable nnls : list vec3 -> list Q -> vec3.

(** [StandardScaler(with_mean=False).fit(X).scale_]: the standard deviation
    of each column, with [1.0] in place of a zero. *)
Definition scale_of_column (col : list Q) : Q :=
  let s := column_std col in if Qeq_bool s 0 then 1 else s.

Definition StandardScaler_scale_ (X : list vec3) : vec3 :=
  (scale_of_column (map c0 X), scale_of_column (map c1 X),
   scale_of_column (map c2 X)).

(** [scaler.fit_transform(X)] without centring: every row divided by the
    scales. *)
Definition StandardScaler_transform (scale_ : vec3) (X : list vec3)
  : list vec3 :=
  map (fun x => vdiv x scale_) X.

(** [LinearRegression(positive=True, fit_intercept=False).fit(X, y)] *)
Definition LinearRegression_fit (X : list vec3) (y : list Q)
  : LinearRegression :=
  {| coef_ := nnls X y; intercept_ := 0 |}.

(** [df.with_columns((pl.col("batchsize") * pl.col("batches")).alias("totalrows"))]:
    the product of two [Int64] columns is an [Int64] column. *)
Definition with_totalrows (df : list Input.row) : list Extended.row :=
  map (fun o => Extended.mk (Input.mode o) (Input.batchsize o)
                  (Input.batches o) (Input.cost o)
                  (wrap_int64 (Input.batchsize o * Input.batches o))) df.

(** [df.filter(pl.col("mode") == m)] *)
Definition filter_mode (df : list Extended.row) (m : string)
  : list Extended.row :=
  filter (fun o => String.eqb (Extended.mode o) m) df.

(** [np.hstack([df_sub.select("totalrows", "batches").to_numpy(), np.ones((n, 1))])] *)
Definition design_matrix (df_sub : list Extended.row) : list vec3 :=
  map (fun o => (inject_Z (Extended.totalrows o),
                 inject_Z (Extended.batches o), 1)) df_sub.

(** The scaled design matrix, the fitted model and the coefficients mapped
    back through the scaler, as functions of [df_sub]: the intermediate
    values of the loop body below. *)
Definition scaled_matrix (df_sub : list Extended.row) : list vec3 :=
  let X := design_matrix df_sub in
  StandardScaler_transform (StandardScaler_scale_ X) X.

Definition fitted (df_sub : list Extended.row) : LinearRegression :=
  LinearRegression_fit (scaled_matrix df_sub) (map Extended.cost df_sub).

Definition coefficients (df_sub : list Extended.row) : vec3 :=
  vdiv (coef_ (fitted df_sub)) (StandardScaler_scale_ (design_matrix df_sub)).

(** The body of the loop over the modes, from [df_sub] on. *)
Definition fit_sub (df_sub : list Extended.row) (m : string)
  : result CostModel.row :=
  let X := design_matrix df_sub in
  let y := map Extended.cost df_sub in
  let scale_ := StandardScaler_scale_ X in
  let X := StandardScaler_transform scale_ X in
  let reg := LinearRegression_fit X y in
  if Qeq_bool (intercept_ reg) 0 then
    let coef := vdiv (coef_ reg) scale_ in
    let actual_coef := fst coef in
    let actual_intercept := snd coef in
    Ok (CostModel.mk m (py_int (fst actual_coef)) (py_int (snd actual_coef))
          (py_int actual_intercept) (LinearRegression_score reg X y))
  else Raise AssertionError.

Definition fit_mode (df : list Extended.row) (m : string)
  : result CostModel.row :=
  fit_sub (filter_mode df m) m.

Fixpoint fit_modes (df : list Extended.row) (modes : list string)
    (acc : list CostModel.row) : result (list CostModel.row) :=
  match modes with
  | [] => Ok acc
  | m :: modes' =>
      r <- fit_mode df m ;;
      fit_modes df modes' (acc ++ [r])
  end.

(** [.sort("cost_row")]: ascending; polars leaves the order of rows with
    equal keys open, the model keeps them in their previous order. *)
Fixpoint insert_by_cost_row (r : CostModel.row) (l : list CostModel.row)
  : list CostModel.row :=
  match l with
  | [] => [r]
  | r' :: l' =>
      if (CostModel.cost_row r <=? CostModel.cost_row r')%Z then r :: l
      else r' :: insert_by_cost_row r l'
  end.

Definition sort_by_cost_row (l : list CostModel.row) : list CostModel.row :=
  fold_right insert_by_cost_row [] l.

(** [regression(df)] *)
Definition regression (df : list Input.row) : result (list CostModel.row) :=
  let df := with_totalrows df in
  rows <- fit_modes df (sorted (unique (map Extended.mode df))) [] ;;
  Ok (sort_by_cost_row rows).

End Regression.

(* ------------------------------------------------------------------ *)
(** * [calc_delta] *)

Open Scope Z_scope.

(** A cell of a named row. *)
Inductive cell : Type :=
| CStr (s : string)
| CInt (z : Z)
| CFloat (f : pyfloat).

(** [df.row(i, named=True)] for a row of the cost-model frame: a dict from
    column name to cell. *)
Definition named (r : CostModel.row) : list (string * cell) :=
  [("mode", CStr (CostModel.mode r));
   ("cost_row", CInt (CostModel.cost_row r));
   ("cost_call", CInt (CostModel.cost_call r));
   ("cost_cached", CInt (CostModel.cost_cached r));
   ("score", CFloat (CostModel.score r))].

Fixpoint cell_get (row : list (string * cell)) (col : string) : result cell :=
  match row with
  | [] => Raise KeyError
  | (k, v) :: row' => if String.eqb k col then Ok v else cell_get row' col
  end.

(** [df.filter(pl.col("mode") == m)] on the cost-model frame. *)
Definition filter_model (df : list CostModel.row) (m : string)
  : list CostModel.row :=
  filter (fun r => String.eqb (CostModel.mode r) m) df.

(** [df.row(0)]: polars raises on a frame without rows. *)
Definition row0 (df : list CostModel.row) : result CostModel.row :=
  match df with
  | r :: _ => Ok r
  | [] => Raise OutOfBoundsError
  end.

(** The keys of [deltas]: [[col for col in df.columns if col.startswith("cost_")]] *)
Definition delta_keys : list string :=
  filter (String.prefix "cost_") CostModel.columns.

Section CalcDelta.

Context {T : Type}.

(** [op: Callable[[int, int], int | float]] *)
Variable op : Z -> Z -> T.

(** [op(a, b)] on two cells; [op] is a function of two ints. *)
Definition apply_op (a b : cell) : result T :=
  match a, b with
  | CInt x, CInt y => Ok (op x y)
  | _, _ => Raise TypeError
  end.

(** [for col, array in deltas.items(): array.append(op(row1[col], row2[col]))],
    as the cells appended for one pair of rows. *)
Fixpoint delta_cells (row1 row2 : list (string * cell)) (keys : list string)
  : result (list (string * T)) :=
  match keys with
  | [] => Ok []
  | col :: keys' =>
      a <- cell_get row1 col ;;
      b <- cell_get row2 col ;;
      v <- apply_op a b ;;
      rest <- delta_cells row1 row2 keys' ;;
      Ok ((col, v) :: rest)
  end.

(** The inner loop [for m1 in modes]. *)
Fixpoint calc_delta_inner (df : list CostModel.row) (m2 : string)
    (row2 : CostModel.row) (modes : list string) (acc : list (Delta.row T))
  : result (list (Delta.row T)) :=
  match modes with
  | [] => Ok acc
  | m1 :: modes' =>
      row1 <- row0 (filter_model df m1) ;;
      if CostModel.cost_row row1 >=? CostModel.cost_row row2 then
        calc_delta_inner df m2 row2 modes' acc
      else
        cells <- delta_cells (named row1) (named row2) delta_keys ;;
        calc_delta_inner df m2 row2 modes' (acc ++ [Delta.mk m2 m1 cells])
  end.

(** The outer loop [for m2 in modes]. *)
Fixpoint calc_delta_outer (df : list CostModel.row) (all rest : list string)
    (acc : list (Delta.row T)) : result (list (Delta.row T)) :=
  match rest with
  | [] => Ok acc
  | m2 :: rest' =>
      row2 <- row0 (filter_model df m2) ;;
      acc' <- calc_delta_inner df m2 row2 all acc ;;
      calc_delta_outer df all rest' acc'
  end.

(** [calc_delta(df, op)] *)
Definition calc_delta (df : list CostModel.row)
  : result (list (Delta.row T)) :=
  let modes := unique (map CostModel.mode df) in
  calc_delta_outer df modes modes [].

End CalcDelta.

(* ------------------------------------------------------------------ *)
(** * The operations [main] passes to [calc_delta] *)

(** [lambda a, b: b - a] *)
Definition delta_abs (a b : Z) : Z := b - a.

(** [lambda a, b: (float(b) - float(a)) / max(1, float(a))] *)
Definition delta_rel1 (a b : Z) : result Q :=
  truediv (py_float b - py_float a)%Q (py_max 1 (py_float a)).

(** [lambda a, b: float(b) / max(1, float(a))] *)
Definition delta_rel2 (a b : Z) : result Q :=
  truediv (py_float b) (py_max 1 (py_float a)).

(* ------------------------------------------------------------------ *)
(** * Frames as objects *)

(** The functions above compute with the contents of frames.  Here the same
    two functions are written over references to frame objects in a heap,
    call by call, to say which objects each call creates and which it only
    reads: the polars methods the script uses ([with_columns], [filter],
    [sort], the constructor) return a new frame, and [select], [to_numpy],
    [unique], [row], [columns] and column access read one. *)
Section Objects.

Context {T : Type}.

Inductive frame : Type :=
| InputFrame (rows : list Input.row)
| ExtendedFrame (rows : list Extended.row)
| CostModelFrame (rows : list CostModel.row)
| DeltaFrame (rows : list (Delta.row T)).

(** The heap holds the frame objects; a reference is a position in it. *)
Definition heap : Type := list frame.
Definition ref : Type := nat.

Definition M (A : Type) : Type := heap -> result (A * heap).

Definition mret {A : Type} (a : A) : M A := fun h => Ok (a, h).

Definition mbind {A B : Type} (c : M A) (k : A -> M B) : M B :=
  fun h =>
    match c h with
    | Ok (a, h') => k a h'
    | Raise e => Raise e
    end.

(** A computation that does not touch the heap. *)
Definition lift {A : Type} (c : result A) : M A :=
  fun h =>
    match c with
    | Ok a => Ok (a, h)
    | Raise e => Raise e
    end.

(** Creating a frame object. *)
Definition new (f : frame) : M ref :=
  fun h => Ok (List.length h, h ++ [f]).

(** Reading a frame object of the expected schema. *)
Definition load_input (r : ref) : M (list Input.row) :=
  fun h =>
    match nth_error h r with
    | Some (InputFrame rows) => Ok (rows, h)
    | Some _ => Raise KeyError
    | None => Raise ReferenceError
    end.

Definition load_extended (r : ref) : M (list Extended.row) :=
  fun h =>
    match nth_error h r with
    | Some (ExtendedFrame rows) => Ok (rows, h)
    | Some _ => Raise KeyError
    | None => Raise ReferenceError
    end.

Definition load_model (r : ref) : M (list CostModel.row) :=
  fun h =>
    match nth_error h r with
    | Some (CostModelFrame rows) => Ok (rows, h)
    | Some _ => Raise KeyError
    | None => Raise ReferenceError
    end.

Notation "x <~ c ;; k" := (mbind c (fun x => k))
  (at level 61, c at next level, right associativity).

Variable column_std : list Q -> Q.
Variable nnls : list vec3 -> list Q -> vec3.

(** [regression(df)] on objects. *)
Fixpoint fit_modes_obj (df : ref) (modes : list string)
    (acc : list CostModel.row) : M (list CostModel.row) :=
  match modes with
  | [] => mret acc
  | m :: modes' =>
      df_sub <~ (rows <~ load_extended df ;;
                 new (ExtendedFrame (filter_mode rows m))) ;;
      sub_rows <~ load_extended df_sub ;;
      r <~ lift (fit_sub column_std nnls sub_rows m) ;;
      fit_modes_obj df modes' (acc ++ [r])
  end.

Definition regression_obj (df : ref) : M ref :=
  df <~ (rows <~ load_input df ;;
         new (ExtendedFrame (with_totalrows rows))) ;;
  modes <~ (rows <~ load_extended df ;; mret (map Extended.mode rows)) ;;
  rows <~ fit_modes_obj df (sorted (unique modes)) [] ;;
  out <~ new (CostModelFrame rows) ;;
  rows <~ load_model out ;;
  new (CostModelFrame (sort_by_cost_row rows)).

Variable op : Z -> Z -> T.

(** [df.filter(pl.col("mode") == m).row(0, named=True)] *)
Definition first_row_obj (df : ref) (m : string) : M CostModel.row :=
  sub <~ (rows <~ load_model df ;;
          new (CostModelFrame (filter_model rows m))) ;;
  rows <~ load_model sub ;;
  lift (row0 rows).

(** [calc_delta(df, op)] on objects. *)
Fixpoint calc_delta_inner_obj (df : ref) (m2 : string)
    (row2 : CostModel.row) (modes : list string) (acc : list (Delta.row T))
  : M (list (Delta.row T)) :=
  match modes with
  | [] => mret acc
  | m1 :: modes' =>
      row1 <~ first_row_obj df m1 ;;
      if (CostModel.cost_row row1 >=? CostModel.cost_row row2)%Z then
        calc_delta_inner_obj df m2 row2 modes' acc
      else
        cells <~ lift (delta_cells op (named row1) (named row2) delta_keys) ;;
        calc_delta_inner_obj df m2 row2 modes'
          (acc ++ [Delta.mk m2 m1 cells])
  end.

Fixpoint calc_delta_outer_obj (df : ref) (all rest : list string)
    (acc : list (Delta.row T)) : M (list (Delta.row T)) :=
  match rest with
  | [] => mret acc
  | m2 :: rest' =>
      row2 <~ first_row_obj df m2 ;;
      acc' <~ calc_delta_inner_obj df m2 row2 all acc ;;
      calc_delta_outer_obj df all rest' acc'
  end.

Definition calc_delta_obj (df : ref) : M ref :=
  modes <~ (rows <~ load_model df ;;
            mret (unique (map CostModel.mode rows))) ;;
  out <~ calc_delta_outer_obj df modes modes [] ;;
  new (DeltaFrame out).

End Objects.

Arguments frame T : clear implicits.
Arguments heap T : clear implicits.
Arguments M T A : clear implicits.

(* ------------------------------------------------------------------ *)
(** * A concrete benchmark *)

Open Scope Q_scope.

(** Two modes measured at the four shapes (1, 1), (3, 1), (1, 3), (3, 3).
    The costs of [wasm] are [2 * totalrows + 3 * batches + 5], those of
    [native] are [totalrows + 7]. *)
Definition example_df : list Input.row :=
  [Input.mk "wasm" 1 1 10; Input.mk "wasm" 3 1 14;
   Input.mk "wasm" 1 3 20; Input.mk "wasm" 3 3 32;
   Input.mk "native" 1 1 8; Input.mk "native" 3 1 10;
   Input.mk "native" 1 3 10; Input.mk "native" 3 3 16].

(** The coefficients of the two exact fits, in the scaled space: the column
    [totalrows] = 1, 3, 3, 9 has standard deviation 3, the column [batches]
    = 1, 1, 3, 3 has standard deviation 1.  The solver is told apart by the
    first target value. *)
Definition example_nnls (X : list vec3) (y : list Q) : vec3 :=
  if Qeq_bool (hd 0 y) 10 then (6, 3, 5) else (3, 0, 7).

(** A frame with negative costs, and the solver that answers with zero
    coefficients. *)
Definition negative_df : list Input.row :=
  [Input.mk "wasm" 1 1 (-1); Input.mk "wasm" 3 1 (-3)].

Definition zero_nnls (X : list vec3) (y : list Q) : vec3 := (0, 0, 0).

(** The cost model of the two modes. *)
Definition example_model : list CostModel.row :=
  [CostModel.mk "native" 1 0 7 (Fin 1); CostModel.mk "wasm" 2 3 5 (Fin 1)].

(** A frame with a single observation, and a solver that fits it without
    residual: [2 * 1 + 3 * 1 + 5 = 10] (all three scales are 1 on a
    one-row matrix). *)
Definition single_df : list Input.row := [Input.mk "wasm" 1 1 10].

Definition single_nnls (X : list vec3) (y : list Q) : vec3 := (2, 3, 5).


Open Scope Z_scope.

(** A profile as the benchmark harness writes it, reduced to the keys the
    script reads, with a cost for each of the two metrics. *)
Definition example_profile (estimated_cycles ir : Z) : pyval :=
  let metrics v :=
    PDict [("metrics", PDict [("Left", PDict [("Int", PInt v)])])] in
  PDict [("summaries", PDict [("total", PDict [("summary",
    PDict [("Callgrind",
      PDict [("EstimatedCycles", metrics estimated_cycles);
             ("Ir", metrics ir)])])])])].

Definition example_record (function_name id : string)
    (estimated_cycles ir : Z) : pyval :=
  PDict [("function_name", PStr function_name); ("id", PStr id);
         ("profiles", PList [example_profile estimated_cycles ir])].

(** A record of a three-row batch whose cost is a string under both
    metrics. *)
Definition text_record : pyval :=
  let metrics :=
    PDict [("metrics", PDict [("Left", PDict [("Int", PStr "abc")])])] in
  PDict [("function_name", PStr "bench_wasm");
         ("id", PStr "batchsize_3_batches_1");
         ("profiles",
          PList [PDict [("summaries", PDict [("total", PDict [("summary",
            PDict [("Callgrind",
              PDict [("EstimatedCycles", metrics);
                     ("Ir", metrics)])])])])]])].

(** The decoder on the lines of the files below.  The lines are named
    rather than spelled out; every other string is not JSON. *)
Definition example_loads (line : string) : result pyval :=
  if String.eqb line "line wasm 3x1" then
    Ok (example_record "bench_wasm" "batchsize_3_batches_1" 14 9)
  else if String.eqb line "line native 1x3" then
    Ok (example_record "bench_native" "batchsize_1_batches_3" 10 6)
  else if String.eqb line "line wasm 0x0" then
    Ok (example_record "bench_wasm" "batchsize_0_batches_0" (-5) 0)
  else if String.eqb line "line upper case" then
    Ok (example_record "bench_WASM" "batchsize_3_batches_1" 14 9)
  else if String.eqb line "line wasm text" then Ok text_record
  else Raise JSONDecodeError.

(** A stand-in for the type inference of [pl.DataFrame], for the files
    below.  It knows two kinds of lists: batch sizes and batch counts are
    integers of the [Int64] range, and the costs are either all such integers
    or all strings.  These it accepts, as the library does; it stands for the
    library on no other list, and answers [TypeError] there. *)
Definition is_int64 (z : Z) : bool := (- 2 ^ 63 <=? z) && (z <? 2 ^ 63).

Definition int64_shape (r : parsed_line) : bool :=
  let '(m, bs, b, c) := r in is_int64 bs && is_int64 b.

Definition int64_cost (r : parsed_line) : bool :=
  match snd r with PInt z => is_int64 z | _ => false end.

Definition str_cost (r : parsed_line) : bool :=
  match snd r with PStr _ => true | _ => false end.

Definition uniform_columns (rows : list parsed_line) : option exn :=
  if forallb int64_shape rows
     && (forallb int64_cost rows || forallb str_cost rows)
  then None else Some TypeError.

Definition example_file : list string :=
  ["line wasm 3x1"; "line native 1x3"].

(** A file whose only line has batch size and batch count zero and a
    negative cost. *)
Definition zero_file : list string := ["line wasm 0x0"].

(** A file whose only line has a string for a cost. *)
Definition text_file : list string := ["line wasm text"].

(** A file whose second line has a function name the pattern rejects. *)
Definition malformed_file : list string :=
  ["line wasm 3x1"; "line upper case"].

(* ================================================================== *)
(** * Vocabulary of the properties *)

(* ------------------------------------------------------------------ *)
(** ** Strings the patterns accept *)

(** Every character of [s] is in the class [f]. *)
Fixpoint all_chars (f : ascii -> bool) (s : string) : bool :=
  match s with
  | EmptyString => true
  | String c s' => f c && all_chars f s'
  end.

(** [s] is not empty and its first character is in the class [f]. *)
Definition starts_in (f : ascii -> bool) (s : string) : bool :=
  match s with
  | EmptyString => false
  | String c _ => f c
  end.

(** [s] is ['bench_'], then the non-empty run [mode] of lowercase letters,
    then a rest that does not go on with a lowercase letter. *)
Definition fn_matches (s mode : string) : Prop :=
  exists rest,
    s = ("bench_" ++ mode ++ rest)%string /\
    mode <> "" /\ all_chars is_lower mode = true /\
    starts_in is_lower rest = false.

(** [s] is ['batchsize_'], a non-empty run of digits, ['_batches_'], a
    non-empty run of digits, and a rest that does not go on with a digit. *)
Definition id_matches (s batchsize batches : string) : Prop :=
  exists rest,
    s = ("batchsize_" ++ batchsize ++ "_batches_" ++ batches ++ rest)%string /\
    batchsize <> "" /\ all_chars is_digit batchsize = true /\
    batches <> "" /\ all_chars is_digit batches = true /\
    starts_in is_digit rest = false.

(* ------------------------------------------------------------------ *)
(** ** Lines and observations *)

(** The first binding of the key [k] in an association list. *)
Inductive assoc_first {A : Type}
  : list (string * A) -> string -> A -> Prop :=
| assoc_here (k : string) (x : A) (d : list (string * A)) :
    assoc_first ((k, x) :: d) k x
| assoc_later (k k' : string) (x y : A) (d : list (string * A)) :
    k' <> k -> assoc_first d k x -> assoc_first ((k', y) :: d) k x.

(** [v] is a dict that holds [x] under the key [k]. *)
Definition has_item (v : pyval) (k : string) (x : pyval) : Prop :=
  exists d, v = PDict d /\ assoc_first d k x.

(** Following the keys of [path] from [v], dict by dict, ends at [x]. *)
Fixpoint has_path (v : pyval) (path : list string) (x : pyval) : Prop :=
  match path with
  | [] => v = x
  | k :: path' => exists w, has_item v k w /\ has_path w path' x
  end.

(** The key under which a profile keeps a metric. *)
Definition metric_key (metric : Metric) : string :=
  match metric with
  | cycles => "EstimatedCycles"
  | instructions => "Ir"
  end.

(** Where a profile keeps the total of a metric. *)
Definition cost_path (metric : Metric) : list string :=
  ["summaries"; "total"; "summary"; "Callgrind"; metric_key metric;
   "metrics"; "Left"; "Int"].

(** The number a string of decimal digits denotes: every digit counts for
    its value times the power of ten of its place. *)
Fixpoint decimal_value (s : string) : Z :=
  match s with
  | EmptyString => 0
  | String c s' =>
      (Z.of_N (N_of_ascii c) - 48) * 10 ^ Z.of_nat (String.length s')
      + decimal_value s'
  end.

(** The four values of an observation. *)
Definition raw_of (o : Observation.row) : parsed_line :=
  (Observation.mode o, Observation.batchsize o, Observation.batches o,
   Observation.cost o).

(** What an observation takes from the name and the id of its line. *)
Definition shape (o : Observation.row) : string * Z * Z :=
  (Observation.mode o, Observation.batchsize o, Observation.batches o).

(** What a line of the file and its observation have to do with each
    other: the line decodes to a dict whose [function_name] is
    ['bench_'] followed by the mode, whose [id] spells batch size and
    batch count in decimal, with no more digits than the interpreter
    converts, and whose [profiles] is a list of one profile that holds the
    cost at the place of the chosen metric. *)
Definition line_observation (json_loads : string -> result pyval)
    (metric : Metric) (line : string) (o : Observation.row) : Prop :=
  exists data fn id g1 g2 profile,
    json_loads line = Ok data /\
    has_item data "function_name" (PStr fn) /\
    fn_matches fn (Observation.mode o) /\
    has_item data "id" (PStr id) /\
    id_matches id g1 g2 /\
    (String.length g1 <= 4300)%nat /\ (String.length g2 <= 4300)%nat /\
    Observation.batchsize o = decimal_value g1 /\
    Observation.batches o = decimal_value g2 /\
    has_item data "profiles" (PList [profile]) /\
    has_path profile (cost_path metric) (Observation.cost o).

(** A value that is a number and not negative. *)
Definition nonneg_number (v : pyval) : Prop :=
  match v with
  | PInt z => 0 <= z
  | PFloat q => (0 <= q)%Q
  | _ => False
  end.

(* ------------------------------------------------------------------ *)
(** ** Cost models *)

(** The order of [.sort("cost_row")]. *)
Definition le_cost_row (a b : CostModel.row) : Prop :=
  CostModel.cost_row a <= CostModel.cost_row b.

(** The three coefficients of a row are not negative. *)
Definition nonneg_costs (r : CostModel.row) : Prop :=
  (0 <= CostModel.cost_row r /\ 0 <= CostModel.cost_call r /\
   0 <= CostModel.cost_cached r)%Z.

Open Scope Q_scope.

(** A score that is a number between 0 and 1. *)
Definition in_unit_interval (f : pyfloat) : Prop :=
  match f with
  | Fin q => 0 <= q /\ q <= 1
  | NaN => False
  end.

(** Scales are positive. *)
Definition pos3 (s : vec3) : Prop := 0 < c0 s /\ 0 < c1 s /\ 0 < c2 s.

(** Element-wise product: coefficients taken into the scaled space. *)
Definition vmul (a b : vec3) : vec3 :=
  (c0 a * c0 b, c1 a * c1 b, c2 a * c2 b).

(** The observations of mode [m] in the input frame. *)
Definition input_of (df : list Input.row) (m : string) : list Input.row :=
  filter (fun o => String.eqb (Input.mode o) m) df.

(** The design matrix of the model
    [y = cost_row * totalrows + cost_call * batches + cost_cached]
    with [totalrows] the [Int64] product of [batchsize] and [batches]: one
    row [(totalrows, batches, 1)] per observation. *)
Definition model_matrix (obs : list Input.row) : list vec3 :=
  map (fun o => (inject_Z (wrap_int64 (Input.batchsize o * Input.batches o)),
                 inject_Z (Input.batches o), 1)) obs.

(** [t] is the [Int64] that the product of [a] and [b] leaves: the value
    of the 64-bit two's complement range that differs from the exact product
    by a multiple of [2^64]. *)
Definition is_int64_product (a b t : Z) : Prop :=
  (- 2 ^ 63 <= t < 2 ^ 63 /\ exists k, t = a * b + k * 2 ^ 64)%Z.

(** The point of the model for an observation: [(totalrows, batches, 1)]. *)
Definition model_point (o : Input.row) (x : vec3) : Prop :=
  exists t,
    is_int64_product (Input.batchsize o) (Input.batches o) t /\
    x = (inject_Z t, inject_Z (Input.batches o), 1).

(** Every column of [X] divided by its scale. *)
Definition divide_columns (s : vec3) (X : list vec3) : list vec3 :=
  map (fun x => (c0 x / c0 s, c1 x / c1 s, c2 x / c2 s)) X.

(** The sum of the squared deviations of the values from their mean. *)
Definition total_sum_of_squares (y : list Q) : Q :=
  Qsum (map (fun v => (v - mean y) * (v - mean y)) y).


(** The observations of mode [m], as the loop selects them. *)
Definition observations_of (df : list Input.row) (m : string)
  : list Extended.row :=
  filter_mode (with_totalrows df) m.

Section RegressionVocabulary.

Variable column_std : list Q -> Q.
Variable nnls : list vec3 -> list Q -> vec3.

(** The scale of a column: its standard deviation, or 1 when that is
    zero. *)
Definition column_scale (col : list Q) (s : Q) : Prop :=
  (column_std col == 0 -> s = 1) /\
  (~ column_std col == 0 -> s = column_std col).

Definition scales_of (X : list vec3) (s : vec3) : Prop :=
  column_scale (map c0 X) (c0 s) /\ column_scale (map c1 X) (c1 s) /\
  column_scale (map c2 X) (c2 s).

(** The row the loop body appends for the observations [df_sub] of mode
    [m]. *)
Definition model_row (df_sub : list Extended.row) (m : string)
  : CostModel.row :=
  let c := coefficients column_std nnls df_sub in
  CostModel.mk m (py_int (c0 c)) (py_int (c1 c)) (py_int (c2 c))
    (LinearRegression_score (fitted column_std nnls df_sub)
       (scaled_matrix column_std df_sub) (map Extended.cost df_sub)).

(** The frame before the final sort: one row per mode, in sorted order of
    the modes. *)
Definition model_rows (df : list Input.row) : list CostModel.row :=
  map (fun m => model_row (filter_mode (with_totalrows df) m) m)
    (sorted (unique (map Input.mode df))).

(** [P] holds of the problem posed for every mode of [df] and of the
    coefficients the solver returns for it. *)
Definition on_posed_problems (df : list Input.row)
    (P : list vec3 -> list Q -> vec3 -> Prop) : Prop :=
  forall m, In m (map Input.mode df) ->
    let X := scaled_matrix column_std (observations_of df m) in
    let y := map Extended.cost (observations_of df m) in
    P X y (nnls X y).

(** The solver keeps its non-negativity promise on [df]. *)
Definition solver_nonneg (df : list Input.row) : Prop :=
  on_posed_problems df (fun _ _ c => nonneg3 c).

(** The solver returns a constrained least-squares optimum on [df]. *)
Definition solver_optimal (df : list Input.row) : Prop :=
  on_posed_problems df nnls_solution.

End RegressionVocabulary.

Open Scope Z_scope.

(* ------------------------------------------------------------------ *)
(** ** Delta rows *)

(** [r] is the first row of [df] whose mode is [m]: the row of [m], when
    the modes of [df] are distinct. *)
Definition first_with_mode (df : list CostModel.row) (m : string)
    (r : CostModel.row) : Prop :=
  exists pre post,
    df = pre ++ r :: post /\ CostModel.mode r = m /\
    Forall (fun r' => CostModel.mode r' <> m) pre.

Section CalcDeltaVocabulary.

Context {T : Type}.
Variable op : Z -> Z -> T.

(** The cells appended for a pair of rows, column by column. *)
Definition cost_cells (row1 row2 : CostModel.row) : list (string * T) :=
  [("cost_row", op (CostModel.cost_row row1) (CostModel.cost_row row2));
   ("cost_call", op (CostModel.cost_call row1) (CostModel.cost_call row2));
   ("cost_cached",
    op (CostModel.cost_cached row1) (CostModel.cost_cached row2))].

(** What one pass of the inner loop appends. *)
Definition inner_rows (df : list CostModel.row) (m2 : string)
    (row2 : CostModel.row) (modes : list string) : list (Delta.row T) :=
  flat_map
    (fun m1 =>
       match row0 (filter_model df m1) with
       | Ok row1 =>
           if CostModel.cost_row row1 >=? CostModel.cost_row row2 then []
           else [Delta.mk m2 m1 (cost_cells row1 row2)]
       | Raise _ => []
       end) modes.

(** What the outer loop appends. *)
Definition outer_rows (df : list CostModel.row) (all rest : list string)
  : list (Delta.row T) :=
  flat_map
    (fun m2 =>
       match row0 (filter_model df m2) with
       | Ok row2 => inner_rows df m2 row2 all
       | Raise _ => []
       end) rest.

End CalcDeltaVocabulary.

(** The pair a delta row compares: [(mode, baseline)]. *)
Definition delta_pair {T : Type} (d : Delta.row T) : string * string :=
  (Delta.mode d, Delta.baseline d).

(** The cell of a delta row in the column [col]. *)
Fixpoint cells_get {T : Type} (cells : list (string * T)) (col : string)
  : option T :=
  match cells with
  | [] => None
  | (k, v) :: cells' =>
      if String.eqb k col then Some v else cells_get cells' col
  end.

Definition delta_get {T : Type} (d : Delta.row T) (col : string) : option T :=
  cells_get (Delta.deltas d) col.

(* ------------------------------------------------------------------ *)
(** ** Computations on the heap *)

Section ObjectVocabulary.

Context {T : Type}.

(** [c] returns from heap [h] in a heap that extends [h] at its end, with
    a value and a final heap that satisfy [Q]. *)
Definition runs {A : Type} (c : M T A) (h : heap T)
    (Q : A -> heap T -> Prop) : Prop :=
  exists a news, c h = Ok (a, h ++ news) /\ Q a (h ++ news).

End ObjectVocabulary.

(* ================================================================== *)
(** * Properties *)

(* ------------------------------------------------------------------ *)
(** ** The error monad *)

Lemma bind_Ok_inv {A B : Type} (c : result A) (k : A -> result B) (b : B) :
  bind c k = Ok b -> exists a, c = Ok a /\ k a = Ok b.
Proof.
  destruct c as [a|e]; simpl; intros H; [eauto | discriminate].
Qed.

Lemma bind_raises {A B : Type} (c : result A) (k : A -> result B) :
  raises c -> raises (bind c k).
Proof.
  intros [e ->]. exists e. reflexivity.
Qed.

Ltac bind_inv H :=
  let a := fresh "a" in
  let Ha := fresh "Ha" in
  apply bind_Ok_inv in H; destruct H as (a & Ha & H).

(* ------------------------------------------------------------------ *)
(** ** [Metric.valgrind_name] *)

(** C10: [valgrind_name] returns ['EstimatedCycles'] for [Metric.cycles] and
    ['Ir'] for [Metric.instructions], and raises for no member of the
    enumeration: the [ValueError] branch is unreachable. *)
Theorem valgrind_name_total :
  valgrind_name cycles = Ok "EstimatedCycles" /\
  valgrind_name instructions = Ok "Ir" /\
  forall self : Metric, ~ raises (valgrind_name self).
Proof.
  repeat split.
  intros self [e He]. destruct self; discriminate He.
Qed.

(* ------------------------------------------------------------------ *)
(** ** The relative deltas *)

Lemma py_max_one_ge (x : Q) : (1 <= py_max 1 x)%Q.
Proof.
  unfold py_max. destruct (Qlt_le_dec 1 x) as [H|H]; lra.
Qed.

Lemma py_max_one_int (a : Z) :
  (py_max 1 (py_float a) == inject_Z (Z.max 1 a))%Q.
Proof.
  unfold py_max, py_float.
  destruct (Qlt_le_dec 1 (inject_Z a)) as [H|H].
  - change 1%Q with (inject_Z 1) in H. rewrite <- Zlt_Qlt in H.
    rewrite Z.max_r by lia. reflexivity.
  - change 1%Q with (inject_Z 1) in H. rewrite <- Zle_Qle in H.
    rewrite Z.max_l by lia. reflexivity.
Qed.

Lemma truediv_defined (x y : Q) : (1 <= y)%Q -> truediv x y = Ok (x / y)%Q.
Proof.
  intros Hy. unfold truediv.
  destruct (Qeq_bool y 0) eqn:E; [|reflexivity].
  apply Qeq_bool_iff in E. lra.
Qed.

(** C9: for every pair of coefficient values [(a, b)], the divisor of both
    relative deltas is [max(1, a)], which is at least 1, so neither division
    raises [ZeroDivisionError] and both deltas are the stated quotients. *)
Theorem relative_deltas_defined (a b : Z) :
  (py_max 1 (py_float a) == inject_Z (Z.max 1 a))%Q /\
  (1 <= py_max 1 (py_float a))%Q /\
  delta_rel1 a b
    = Ok ((py_float b - py_float a) / py_max 1 (py_float a))%Q /\
  delta_rel2 a b = Ok (py_float b / py_max 1 (py_float a))%Q.
Proof.
  split; [apply py_max_one_int|].
  split; [apply py_max_one_ge|].
  split; apply truediv_defined, py_max_one_ge.
Qed.

(* ------------------------------------------------------------------ *)
(** ** [unique] and [sorted] *)

Lemma unique_In (x : string) (l : list string) : In x (unique l) <-> In x l.
Proof.
  induction l as [|y l IH]; simpl; [tauto|].
  rewrite filter_In, IH, negb_true_iff, String.eqb_neq.
  destruct (string_dec y x) as [->|Hne]; [tauto|].
  split; [tauto|]. intros [H|H]; [tauto|]. right. split; [exact H|congruence].
Qed.

Lemma NoDup_filter {A : Type} (f : A -> bool) (l : list A) :
  NoDup l -> NoDup (filter f l).
Proof.
  induction 1 as [|x l Hx Hl IH]; simpl; [constructor|].
  destruct (f x); [|exact IH].
  constructor; [|exact IH]. rewrite filter_In. tauto.
Qed.

Lemma unique_NoDup (l : list string) : NoDup (unique l).
Proof.
  induction l as [|y l IH]; simpl; constructor.
  - rewrite filter_In, negb_true_iff, String.eqb_neq. tauto.
  - apply NoDup_filter, IH.
Qed.

Lemma insert_sorted_perm (x : string) (l : list string) :
  Permutation (insert_sorted x l) (x :: l).
Proof.
  induction l as [|y l IH]; simpl; [reflexivity|].
  destruct (String.leb x y); [reflexivity|].
  rewrite IH. apply perm_swap.
Qed.

Lemma sorted_perm (l : list string) : Permutation (sorted l) l.
Proof.
  induction l as [|x l IH]; simpl; [reflexivity|].
  rewrite insert_sorted_perm, IH. reflexivity.
Qed.

(* ------------------------------------------------------------------ *)
(** ** [.sort("cost_row")] *)

Lemma insert_by_cost_row_perm (r : CostModel.row) (l : list CostModel.row) :
  Permutation (insert_by_cost_row r l) (r :: l).
Proof.
  induction l as [|r' l IH]; simpl; [reflexivity|].
  destruct (CostModel.cost_row r <=? CostModel.cost_row r');
    [reflexivity|].
  rewrite IH. apply perm_swap.
Qed.

Lemma sort_by_cost_row_perm (l : list CostModel.row) :
  Permutation (sort_by_cost_row l) l.
Proof.
  induction l as [|r l IH]; simpl; [reflexivity|].
  rewrite insert_by_cost_row_perm. apply perm_skip, IH.
Qed.

Lemma insert_by_cost_row_sorted (r : CostModel.row) (l : list CostModel.row) :
  StronglySorted le_cost_row l ->
  StronglySorted le_cost_row (insert_by_cost_row r l).
Proof.
  induction 1 as [|r' l Hl IH Hr']; simpl.
  - repeat constructor.
  - destruct (CostModel.cost_row r <=? CostModel.cost_row r') eqn:E.
    + apply Z.leb_le in E. constructor; [constructor; assumption|].
      constructor; [exact E|].
      eapply Forall_impl; [|exact Hr'].
      unfold le_cost_row. intros; lia.
    + apply Z.leb_gt in E. constructor; [exact IH|].
      eapply Permutation_Forall;
        [symmetry; apply insert_by_cost_row_perm|].
      constructor; [unfold le_cost_row; lia | exact Hr'].
Qed.

Lemma sort_by_cost_row_sorted (l : list CostModel.row) :
  StronglySorted le_cost_row (sort_by_cost_row l).
Proof.
  induction l as [|r l IH]; simpl; [constructor|].
  apply insert_by_cost_row_sorted, IH.
Qed.

(* ------------------------------------------------------------------ *)
(** ** The loop of [regression] *)

Section RegressionFacts.

Variable column_std : list Q -> Q.
Variable nnls : list vec3 -> list Q -> vec3.

(** The assertion on [intercept_] never fails. *)
Lemma fit_sub_Ok (df_sub : list Extended.row) (m : string) :
  fit_sub column_std nnls df_sub m = Ok (model_row column_std nnls df_sub m).
Proof. reflexivity. Qed.

Lemma fit_modes_Ok (df : list Extended.row) (modes : list string)
    (acc : list CostModel.row) :
  fit_modes column_std nnls df modes acc
  = Ok (acc ++ map (fun m => model_row column_std nnls (filter_mode df m) m)
               modes).
Proof.
  revert acc. induction modes as [|m modes IH]; intros acc.
  - simpl. rewrite app_nil_r. reflexivity.
  - cbn [fit_modes map]. unfold fit_mode. rewrite fit_sub_Ok.
    cbn [bind]. rewrite IH, <- app_assoc. reflexivity.
Qed.

Lemma with_totalrows_mode (df : list Input.row) :
  map Extended.mode (with_totalrows df) = map Input.mode df.
Proof.
  unfold with_totalrows. rewrite map_map. reflexivity.
Qed.

Lemma regression_Ok (df : list Input.row) :
  regression column_std nnls df
  = Ok (sort_by_cost_row (model_rows column_std nnls df)).
Proof.
  unfold regression. rewrite fit_modes_Ok, with_totalrows_mode.
  reflexivity.
Qed.


Lemma regression_rows_In (df : list Input.row) (r : CostModel.row) :
  In r (sort_by_cost_row (model_rows column_std nnls df)) <->
  In (CostModel.mode r) (map Input.mode df) /\
  r = model_row column_std nnls
        (filter_mode (with_totalrows df) (CostModel.mode r))
        (CostModel.mode r).
Proof.
  split.
  - intros H.
    apply (Permutation_in _ (sort_by_cost_row_perm _)) in H.
    unfold model_rows in H. apply in_map_iff in H.
    destruct H as (m & <- & Hm). simpl.
    apply (Permutation_in _ (sorted_perm _)) in Hm.
    apply (proj1 (unique_In _ _)) in Hm. split; [exact Hm | reflexivity].
  - intros [Hm Hr].
    apply (Permutation_in _ (Permutation_sym (sort_by_cost_row_perm _))).
    unfold model_rows. apply in_map_iff.
    exists (CostModel.mode r). split; [symmetry; exact Hr|].
    apply (Permutation_in _ (Permutation_sym (sorted_perm _))).
    apply (proj2 (unique_In _ _)), Hm.
Qed.

End RegressionFacts.

(** C8: the frame [regression] returns holds the rows fitted for the modes
    of the input, one for every mode, rearranged so that they are sorted in
    non-decreasing order of [cost_row]; in particular no row has a lower
    [cost_row] than the first one. *)
Theorem regression_sorted_by_cost_row
    (column_std : list Q -> Q) (nnls : list vec3 -> list Q -> vec3)
    (df : list Input.row) :
  exists rows,
    regression column_std nnls df = Ok rows /\
    Permutation rows (model_rows column_std nnls df) /\
    (forall m, In m (map Input.mode df) <->
               exists r, In r rows /\ CostModel.mode r = m) /\
    StronglySorted le_cost_row rows /\
    forall first rest r,
      rows = first :: rest -> In r rows ->
      CostModel.cost_row first <= CostModel.cost_row r.
Proof.
  exists (sort_by_cost_row (model_rows column_std nnls df)).
  split; [apply regression_Ok|].
  split; [apply sort_by_cost_row_perm|].
  split.
  { intros m. split.
    - intros Hm.
      exists (model_row column_std nnls (filter_mode (with_totalrows df) m) m).
      split; [|reflexivity].
      apply regression_rows_In. simpl. split; [exact Hm | reflexivity].
    - intros (r & Hr & <-). apply regression_rows_In in Hr. apply Hr. }
  pose proof (sort_by_cost_row_sorted (model_rows column_std nnls df)) as Hs.
  split; [exact Hs|].
  intros first rest r E Hr. rewrite E in Hs, Hr.
  inversion Hs as [|? ? _ Hall]; subst.
  destruct Hr as [<-|Hr]; [lia|].
  rewrite Forall_forall in Hall. apply Hall, Hr.
Qed.

(* ------------------------------------------------------------------ *)
(** ** Arithmetic of the fit *)

Open Scope Q_scope.

Lemma py_int_nonneg (x : Q) : 0 <= x -> (0 <= py_int x)%Z.
Proof.
  unfold Qle, py_int. simpl. intros H.
  apply Z.quot_pos; lia.
Qed.

Lemma Qdiv_nonneg (a s : Q) : 0 <= a -> 0 < s -> 0 <= a / s.
Proof.
  intros Ha Hs. apply Qle_shift_div_l; [exact Hs | lra].
Qed.

Lemma Qsum_nonneg (l : list Q) : Forall (fun x => 0 <= x) l -> 0 <= Qsum l.
Proof.
  unfold Qsum. induction 1 as [|x l Hx Hl IH]; simpl; lra.
Qed.

Lemma Qsquare_nonneg (x : Q) : 0 <= x * x.
Proof. nra. Qed.

Lemma sq_diffs_nonneg (a b : list Q) : Forall (fun x => 0 <= x) (sq_diffs a b).
Proof.
  revert b. induction a as [|x a IH]; intros [|y b]; simpl; constructor.
  - apply Qsquare_nonneg.
  - apply IH.
Qed.

(** Predictions that agree row by row give the same sum of squared
    residuals. *)
Lemma sq_diffs_pointwise {A : Type} (f g : A -> Q) (X : list A) (y : list Q) :
  (forall x, In x X -> f x == g x) ->
  Qsum (sq_diffs y (map f X)) == Qsum (sq_diffs y (map g X)).
Proof.
  revert y. induction X as [|x X IH]; intros y H.
  - destruct y; reflexivity.
  - destruct y as [|y0 y]; simpl; [reflexivity|].
    rewrite (H x (or_introl eq_refl)), IH; [reflexivity|].
    intros x' Hx'. apply H. right. exact Hx'.
Qed.

(** Dividing the rows by the scales and the coefficients by the scales
    again is the same as leaving the rows alone: the identity behind
    [coef = reg.coef_ / scaler.scale_]. *)
Lemma dot_scaled (x c s : vec3) :
  pos3 s -> dot (vdiv x s) c == dot x (vdiv c s).
Proof.
  intros (H0 & H1 & H2). unfold dot, vdiv, c0, c1, c2 in *. simpl.
  field. repeat split; lra.
Qed.

Lemma dot_scaled_vmul (x c s : vec3) :
  pos3 s -> dot (vdiv x s) (vmul c s) == dot x c.
Proof.
  intros (H0 & H1 & H2). unfold dot, vdiv, vmul, c0, c1, c2 in *. simpl.
  field. repeat split; lra.
Qed.

Lemma vdiv_nonneg (c s : vec3) : nonneg3 c -> pos3 s -> nonneg3 (vdiv c s).
Proof.
  intros (H0 & H1 & H2) (S0 & S1 & S2).
  unfold nonneg3, vdiv, c0, c1, c2 in *. simpl in *.
  repeat split; apply Qdiv_nonneg; assumption.
Qed.

Lemma vmul_nonneg (c s : vec3) : nonneg3 c -> pos3 s -> nonneg3 (vmul c s).
Proof.
  intros (H0 & H1 & H2) (S0 & S1 & S2).
  unfold nonneg3, vmul, c0, c1, c2 in *. simpl in *.
  repeat split; nra.
Qed.

Section ScalerFacts.

Variable column_std : list Q -> Q.
Hypothesis column_std_nonneg : forall col, 0 <= column_std col.

Lemma scale_of_column_pos (col : list Q) :
  0 < scale_of_column column_std col.
Proof.
  unfold scale_of_column.
  destruct (Qeq_bool (column_std col) 0) eqn:E; [lra|].
  apply Qeq_bool_neq in E. pose proof (column_std_nonneg col) as H.
  destruct (Qle_lt_or_eq _ _ H) as [Hlt|Heq]; [exact Hlt|].
  exfalso. apply E. symmetry. exact Heq.
Qed.

Lemma StandardScaler_scale_pos (X : list vec3) :
  pos3 (StandardScaler_scale_ column_std X).
Proof.
  repeat split; apply scale_of_column_pos.
Qed.

End ScalerFacts.

(* ------------------------------------------------------------------ *)
(** ** The solver's contract on the problems [regression] poses *)

Section Contract.

Variable column_std : list Q -> Q.
Variable nnls : list vec3 -> list Q -> vec3.

Lemma solver_optimal_nonneg (df : list Input.row) :
  solver_optimal column_std nnls df ->
  solver_nonneg column_std nnls df.
Proof.
  intros H m Hm. apply (H m Hm).
Qed.

End Contract.

(** C1: when the standard deviations are non-negative and the solver keeps
    the non-negativity constraint on the problems posed for [df],
    [regression] returns a frame that has a row for every mode of the input,
    and in every row [cost_row], [cost_call] and [cost_cached] are
    non-negative integers. *)
Theorem regression_costs_nonneg
    (column_std : list Q -> Q) (nnls : list vec3 -> list Q -> vec3)
    (df : list Input.row)
    (Hstd : forall col, 0 <= column_std col)
    (Hnnls : solver_nonneg column_std nnls df) :
  exists rows,
    regression column_std nnls df = Ok rows /\
    (forall m, In m (map Input.mode df) ->
       exists r, In r rows /\ CostModel.mode r = m) /\
    Forall nonneg_costs rows.
Proof.
  exists (sort_by_cost_row (model_rows column_std nnls df)).
  split; [apply regression_Ok|]. split.
  - intros m Hm.
    exists (model_row column_std nnls (observations_of df m) m).
    split; [|reflexivity].
    apply regression_rows_In. simpl. split; [exact Hm | reflexivity].
  - apply Forall_forall. intros r Hr.
    apply regression_rows_In in Hr. destruct Hr as [Hm ->].
    specialize (Hnnls _ Hm). simpl in Hnnls.
    pose proof (vdiv_nonneg _ _ Hnnls
                  (StandardScaler_scale_pos column_std Hstd
                     (design_matrix (observations_of df (CostModel.mode r)))))
      as (H0 & H1 & H2).
    unfold nonneg_costs, model_row. simpl.
    repeat split; apply py_int_nonneg; assumption.
Qed.

(* ------------------------------------------------------------------ *)
(** ** The concrete benchmark *)

Lemma exact_std_nonneg (col : list Q) : 0 <= exact_std col.
Proof.
  unfold exact_std, exact_sqrt, Qle. simpl.
  rewrite Z.mul_1_r. apply Z.sqrt_nonneg.
Qed.

Lemma example_nnls_nonneg (X : list vec3) (y : list Q) :
  nonneg3 (example_nnls X y).
Proof.
  unfold example_nnls, nonneg3, c0, c1, c2.
  destruct (Qeq_bool (hd 0 y) 10); simpl; repeat split; lra.
Qed.

Lemma rss_nonneg (X : list vec3) (y : list Q) (c : vec3) : 0 <= rss X y c.
Proof.
  apply Qsum_nonneg, sq_diffs_nonneg.
Qed.

(** A fit without residual is a constrained least-squares optimum. *)
Lemma exact_fit_is_solution (X : list vec3) (y : list Q) (c : vec3) :
  nonneg3 c -> rss X y c == 0 -> nnls_solution X y c.
Proof.
  intros Hc H0. split; [exact Hc|].
  intros c' _. rewrite H0. apply rss_nonneg.
Qed.

Lemma example_modes (m : string) :
  In m (map Input.mode example_df) -> m = "wasm" \/ m = "native".
Proof.
  simpl. intuition auto.
Qed.

Lemma example_solver_optimal : solver_optimal exact_std example_nnls example_df.
Proof.
  intros m Hm. apply example_modes in Hm.
  destruct Hm as [-> | ->]; apply exact_fit_is_solution;
    solve [apply example_nnls_nonneg | vm_compute; reflexivity].
Qed.

Example example_regression :
  regression exact_std example_nnls example_df = Ok example_model.
Proof. vm_compute. reflexivity. Qed.

Lemma regression_costs_nonneg_witness :
  exists rows,
    regression exact_std example_nnls example_df = Ok rows /\
    (forall m, In m (map Input.mode example_df) ->
       exists r, In r rows /\ CostModel.mode r = m) /\
    Forall nonneg_costs rows.
Proof.
  apply (regression_costs_nonneg exact_std example_nnls example_df).
  - exact exact_std_nonneg.
  - exact (solver_optimal_nonneg _ _ _ example_solver_optimal).
Defined.

(* ------------------------------------------------------------------ *)
(** ** The problem posed for a mode *)

Lemma wrap_int64_product (a b : Z) : is_int64_product a b (wrap_int64 (a * b)).
Proof.
  unfold is_int64_product, wrap_int64. split.
  - pose proof (Z.mod_pos_bound (a * b + 2 ^ 63) (2 ^ 64) eq_refl)%Z. lia.
  - exists (- ((a * b + 2 ^ 63) / 2 ^ 64))%Z.
    pose proof (Z.div_mod (a * b + 2 ^ 63) (2 ^ 64))%Z. lia.
Qed.

Lemma is_int64_product_unique (a b t t' : Z) :
  is_int64_product a b t -> is_int64_product a b t' -> t = t'.
Proof.
  intros [H (k & E)] [H' (k' & E')]. lia.
Qed.


Lemma model_points_spec (obs : list Input.row) (X : list vec3) :
  Forall2 model_point obs X <-> X = model_matrix obs.
Proof.
  split.
  - induction 1 as [|o x obs X (t & Ht & ->) _ IH]; [reflexivity|].
    cbn [model_matrix map]. fold (model_matrix obs). rewrite <- IH.
    rewrite (is_int64_product_unique _ _ _ _ Ht (wrap_int64_product _ _)).
    reflexivity.
  - intros ->. induction obs as [|o obs IH]; constructor; [|exact IH].
    exists (wrap_int64 (Input.batchsize o * Input.batches o)).
    split; [apply wrap_int64_product | reflexivity].
Qed.

Lemma scales_of_spec (column_std : list Q -> Q) (X : list vec3) (s : vec3) :
  scales_of column_std X s <-> s = StandardScaler_scale_ column_std X.
Proof.
  assert (Hcol : forall col v,
             column_scale column_std col v
             <-> v = scale_of_column column_std col).
  { intros col v. unfold column_scale, scale_of_column.
    destruct (Qeq_bool (column_std col) 0) eqn:E.
    - apply Qeq_bool_iff in E. split; [intros [H _]; auto|].
      intros ->. split; [reflexivity | intros H; destruct (H E)].
    - apply Qeq_bool_neq in E. split; [intros [_ H]; auto|].
      intros ->. split; [intros H; destruct (E H) | reflexivity]. }
  destruct s as [[a b] c].
  unfold scales_of, StandardScaler_scale_, c0, c1, c2. simpl.
  rewrite !Hcol. split.
  - intros (-> & -> & ->). reflexivity.
  - intros [= -> -> ->]. auto.
Qed.

Lemma divide_columns_transform (s : vec3) (X : list vec3) :
  divide_columns s X = StandardScaler_transform s X.
Proof. reflexivity. Qed.


(* ------------------------------------------------------------------ *)
(** ** One row per mode, fitted on that mode's observations *)

Lemma observations_of_input (df : list Input.row) (m : string) :
  observations_of df m = with_totalrows (input_of df m).
Proof.
  unfold observations_of, filter_mode, input_of, with_totalrows.
  induction df as [|o df IH]; simpl; [reflexivity|].
  destruct (String.eqb (Input.mode o) m); simpl; rewrite IH; reflexivity.
Qed.

Lemma design_matrix_input (df : list Input.row) (m : string) :
  design_matrix (observations_of df m) = model_matrix (input_of df m).
Proof.
  rewrite observations_of_input.
  unfold design_matrix, with_totalrows, model_matrix.
  rewrite map_map. reflexivity.
Qed.

Lemma cost_input (df : list Input.row) (m : string) :
  map Extended.cost (observations_of df m) = map Input.cost (input_of df m).
Proof.
  rewrite observations_of_input. unfold with_totalrows.
  rewrite map_map. reflexivity.
Qed.

Lemma rss_scaled (s : vec3) (X : list vec3) (y : list Q) (c : vec3) :
  pos3 s ->
  rss (StandardScaler_transform s X) y c == rss X y (vdiv c s).
Proof.
  intros Hs. unfold rss, StandardScaler_transform. rewrite map_map.
  apply sq_diffs_pointwise. intros x _. apply dot_scaled, Hs.
Qed.

Lemma rss_scaled_vmul (s : vec3) (X : list vec3) (y : list Q) (c : vec3) :
  pos3 s ->
  rss (StandardScaler_transform s X) y (vmul c s) == rss X y c.
Proof.
  intros Hs. unfold rss, StandardScaler_transform. rewrite map_map.
  apply sq_diffs_pointwise. intros x _. apply dot_scaled_vmul, Hs.
Qed.

(** An optimum of the scaled problem, mapped back through the scaler, is an
    optimum of the problem as posed. *)
Lemma nnls_solution_unscaled (s : vec3) (X : list vec3) (y : list Q)
    (c : vec3) :
  pos3 s ->
  nnls_solution (StandardScaler_transform s X) y c ->
  nnls_solution X y (vdiv c s).
Proof.
  intros Hs [Hc Hopt]. split; [apply vdiv_nonneg; assumption|].
  intros c' Hc'.
  rewrite <- (rss_scaled s X y c Hs), <- (rss_scaled_vmul s X y c' Hs).
  apply Hopt, vmul_nonneg; assumption.
Qed.





(* ------------------------------------------------------------------ *)
(** ** The fit quality score *)

Lemma sq_diffs_const {A : Type} (X : list A) (y : list Q) (mu : Q) :
  List.length X = List.length y ->
  sq_diffs y (map (fun _ => mu) X) = map (fun v => (v - mu) * (v - mu)) y.
Proof.
  revert y. induction X as [|x X IH]; intros [|v y] H; try discriminate H.
  - reflexivity.
  - simpl. f_equal. apply IH. simpl in H. congruence.
Qed.

Lemma mean_nonneg (l : list Q) : Forall (fun v => 0 <= v) l -> 0 <= mean l.
Proof.
  intros H. unfold mean. destruct l as [|v l].
  - vm_compute. discriminate.
  - apply Qdiv_nonneg; [apply Qsum_nonneg, H|].
    change 0 with (inject_Z 0). rewrite <- Zlt_Qlt. simpl List.length. lia.
Qed.

(** With two samples or more, and residuals no larger than the deviations
    from the mean, R^2 is a number between 0 and 1. *)
Lemma r2_score_bounds (y p : list Q) :
  (2 <= List.length p)%nat ->
  Qsum (sq_diffs y p)
    <= Qsum (map (fun v => (v - mean y) * (v - mean y)) y) ->
  in_unit_interval (r2_score y p).
Proof.
  intros Hlen Hle. unfold r2_score.
  destruct (Nat.ltb_spec (List.length p) 2) as [Hlt|_]; [lia|].
  cbv zeta.
  set (num := Qsum (sq_diffs y p)) in *.
  set (den := Qsum (map (fun v => (v - mean y) * (v - mean y)) y)) in *.
  assert (Hnum : 0 <= num) by apply Qsum_nonneg, sq_diffs_nonneg.
  destruct (Qeq_bool den 0) eqn:Eden; destruct (Qeq_bool num 0) eqn:Enum;
    simpl; try lra.
  apply Qeq_bool_neq in Eden.
  assert (Hden : 0 < den).
  { destruct (Qle_lt_or_eq 0 den) as [Hlt|Heq]; [lra | exact Hlt |].
    exfalso. apply Eden. symmetry. exact Heq. }
  assert (H0 : 0 <= num / den) by (apply Qdiv_nonneg; assumption).
  assert (H1 : num / den <= 1) by (apply Qle_shift_div_r; [exact Hden | lra]).
  lra.
Qed.

Lemma dot_intercept_only (x : vec3) (mu : Q) :
  c2 x == 1 -> dot x (0, 0, mu) == mu.
Proof.
  intros H. unfold dot, c0, c1, c2 in *. simpl. rewrite H. ring.
Qed.

(** The residuals of an optimum are no larger than the deviations of the
    target from its mean, because predicting the mean everywhere is a
    feasible choice when the mean is not negative. *)
Lemma optimum_beats_mean (X : list vec3) (y : list Q) (c : vec3) :
  List.length X = List.length y ->
  (forall x, In x X -> c2 x == 1) ->
  0 <= mean y ->
  nnls_solution X y c ->
  rss X y c <= Qsum (map (fun v => (v - mean y) * (v - mean y)) y).
Proof.
  intros Hlen Hones Hmu [_ Hopt].
  rewrite <- (sq_diffs_const X y (mean y) Hlen).
  rewrite <- (sq_diffs_pointwise (fun x => dot x (0, 0, mean y)));
    [|intros x Hx; apply dot_intercept_only, Hones, Hx].
  apply Hopt. unfold nonneg3, c0, c1, c2. simpl. repeat split; lra.
Qed.

Lemma model_matrix_ones (obs : list Input.row) (x : vec3) :
  In x (model_matrix obs) -> c2 x == 1.
Proof.
  unfold model_matrix. intros H. apply in_map_iff in H.
  destruct H as (o & <- & _). reflexivity.
Qed.

(** The score of the row fitted for a mode with fewer than two
    observations. *)
Lemma model_row_score_nan
    (column_std : list Q -> Q) (nnls : list vec3 -> list Q -> vec3)
    (df : list Input.row) (m : string) :
  (List.length (input_of df m) < 2)%nat ->
  CostModel.score (model_row column_std nnls (observations_of df m) m) = NaN.
Proof.
  intros H. unfold model_row, LinearRegression_score, r2_score. simpl.
  unfold predict, scaled_matrix, StandardScaler_transform.
  rewrite design_matrix_input. unfold model_matrix. rewrite !length_map.
  destruct (Nat.ltb_spec (List.length (input_of df m)) 2) as [_|Hge];
    [reflexivity | lia].
Qed.

(** The score of the row fitted for a mode with two observations or more,
    when the fit is no worse than predicting the mean cost. *)
Lemma model_row_score_beats_mean
    (column_std : list Q -> Q) (nnls : list vec3 -> list Q -> vec3)
    (df : list Input.row) (m : string) :
  (2 <= List.length (input_of df m))%nat ->
  (let X := model_matrix (input_of df m) in
   let Xs := divide_columns (StandardScaler_scale_ column_std X) X in
   let y := map Input.cost (input_of df m) in
   rss Xs y (nnls Xs y) <= total_sum_of_squares y) ->
  in_unit_interval
    (CostModel.score (model_row column_std nnls (observations_of df m) m)).
Proof.
  intros Htwo Hle. cbv zeta in Hle.
  unfold model_row, LinearRegression_score, predict. simpl.
  unfold scaled_matrix.
  rewrite design_matrix_input, cost_input.
  rewrite divide_columns_transform in Hle. revert Hle.
  set (s := StandardScaler_scale_ column_std (model_matrix (input_of df m))).
  set (X := model_matrix (input_of df m)).
  set (y := map Input.cost (input_of df m)).
  set (c := nnls (StandardScaler_transform s X) y).
  intros Hle.
  apply r2_score_bounds.
  - unfold StandardScaler_transform, X, model_matrix. rewrite !length_map.
    exact Htwo.
  - rewrite (sq_diffs_pointwise _ (fun x => dot x c));
      [|intros x _; ring].
    exact Hle.
Qed.

(** An optimum is no worse than predicting the mean cost, when the costs
    are not negative. *)
Lemma optimum_fit_beats_mean
    (column_std : list Q -> Q) (obs : list Input.row) (c : vec3) :
  (forall col, 0 <= column_std col) ->
  Forall (fun o => 0 <= Input.cost o) obs ->
  let X := model_matrix obs in
  let Xs := divide_columns (StandardScaler_scale_ column_std X) X in
  let y := map Input.cost obs in
  nnls_solution Xs y c ->
  rss Xs y c <= total_sum_of_squares y.
Proof.
  intros Hstd Hcost X Xs y Hfit.
  pose proof (StandardScaler_scale_pos column_std Hstd X) as Hs.
  unfold Xs in *. rewrite divide_columns_transform in *.
  apply (nnls_solution_unscaled _ _ _ _ Hs) in Hfit.
  rewrite (rss_scaled _ X y c Hs).
  apply optimum_beats_mean.
  - unfold X, y, model_matrix. rewrite !length_map. reflexivity.
  - apply model_matrix_ones.
  - apply mean_nonneg. unfold y. apply Forall_map. exact Hcost.
  - exact Hfit.
Qed.

(** C3, as amended: [regression] returns a frame in which the score of a
    mode with fewer than two observations is not a number, and the score of
    a mode with two observations or more lies in the interval [0, 1] when
    the fit of that mode leaves residuals no larger than the deviations of
    the costs from their mean; this is the case when the costs of the mode
    are not negative, the standard deviations are not negative and the
    solver returns a constrained least-squares optimum of the problem posed
    for the mode. *)
Theorem regression_score_in_unit_interval
    (column_std : list Q -> Q) (nnls : list vec3 -> list Q -> vec3)
    (df : list Input.row) :
  exists rows,
    regression column_std nnls df = Ok rows /\
    forall r, In r rows ->
      let obs := input_of df (CostModel.mode r) in
      let y := map Input.cost obs in
      ((List.length obs < 2)%nat -> CostModel.score r = NaN) /\
      ((2 <= List.length obs)%nat ->
       forall X s,
         Forall2 model_point obs X -> scales_of column_std X s ->
         let Xs := divide_columns s X in
         rss Xs y (nnls Xs y) <= total_sum_of_squares y ->
         in_unit_interval (CostModel.score r)) /\
      ((2 <= List.length obs)%nat ->
       (forall col, 0 <= column_std col) ->
       Forall (fun o => 0 <= Input.cost o) obs ->
       forall X s,
         Forall2 model_point obs X -> scales_of column_std X s ->
         let Xs := divide_columns s X in
         nnls_solution Xs y (nnls Xs y) ->
         in_unit_interval (CostModel.score r)).
Proof.
  exists (sort_by_cost_row (model_rows column_std nnls df)).
  split; [apply regression_Ok|].
  intros r Hr obs y. apply regression_rows_In in Hr. destruct Hr as [Hm Hr].
  unfold y, obs. clear y obs. remember (CostModel.mode r) as m eqn:Em.
  rewrite Hr. fold (observations_of df m).
  split; [apply model_row_score_nan|]. split.
  - intros Htwo X s HX Hs Hle.
    apply model_points_spec in HX. apply scales_of_spec in Hs. subst X s.
    apply model_row_score_beats_mean; assumption.
  - intros Htwo Hstd Hcost X s HX Hs Hfit.
    apply model_points_spec in HX. apply scales_of_spec in Hs. subst X s.
    apply model_row_score_beats_mean; [exact Htwo|].
    apply optimum_fit_beats_mean; assumption.
Qed.

Lemma example_costs_nonneg (m : string) :
  Forall (fun o => 0 <= Input.cost o) (input_of example_df m).
Proof.
  apply Forall_forall. intros o Ho. apply filter_In in Ho.
  destruct Ho as [Ho _]. revert o Ho. apply Forall_forall.
  unfold example_df. repeat constructor; simpl; lra.
Qed.

Lemma regression_score_in_unit_interval_witness :
  Forall (fun r => in_unit_interval (CostModel.score r)) example_model.
Proof.
  destruct (regression_score_in_unit_interval exact_std example_nnls
              example_df) as (rows & Hrows & H).
  rewrite example_regression in Hrows. injection Hrows as <-.
  apply Forall_forall. intros r Hr.
  destruct (H r Hr) as (_ & _ & Hopt).
  assert (Hm : In (CostModel.mode r) (map Input.mode example_df)).
  { destruct Hr as [<-|[<-|[]]]; simpl; auto 10. }
  apply (Hopt
           ltac:(destruct Hr as [<-|[<-|[]]]; vm_compute; lia)
           exact_std_nonneg
           (example_costs_nonneg _)
           (model_matrix (input_of example_df (CostModel.mode r)))
           (StandardScaler_scale_ exact_std
              (model_matrix (input_of example_df (CostModel.mode r))))).
  - apply model_points_spec. reflexivity.
  - apply scales_of_spec. reflexivity.
  - rewrite divide_columns_transform, <- design_matrix_input, <- cost_input.
    exact (example_solver_optimal _ Hm).
Defined.

Lemma single_solver_optimal : solver_optimal exact_std single_nnls single_df.
Proof.
  intros m Hm. simpl in Hm. destruct Hm as [<- | []].
  apply exact_fit_is_solution.
  - unfold single_nnls, nonneg3, c0, c1, c2. simpl. repeat split; lra.
  - vm_compute. reflexivity.
Qed.

(** C3, as stated, fails on a mode with a single observation: the solver
    keeps its contract (the fit is exact), the cost is positive, and the
    score [regression] records is not a number, which lies in no
    interval. *)
Lemma single_observation_score_is_nan :
  solver_optimal exact_std single_nnls single_df /\
  Forall (fun o => 0 <= Input.cost o) single_df /\
  regression exact_std single_nnls single_df
  = Ok [CostModel.mk "wasm" 2 3 5 NaN] /\
  ~ Forall (fun r => in_unit_interval (CostModel.score r))
      [CostModel.mk "wasm" 2 3 5 NaN].
Proof.
  split; [exact single_solver_optimal|].
  split; [repeat constructor; simpl; lra|].
  split; [vm_compute; reflexivity|].
  intros H. inversion H as [|? ? Hnan _]. exact Hnan.
Qed.

(** Why the costs must not be negative: on [negative_df] the zero vector is
    the constrained optimum (every non-negative vector predicts non-negative
    costs, further away from the targets), and the score is [-4]. *)
Lemma negative_solver_optimal : solver_optimal exact_std zero_nnls negative_df.
Proof.
  intros m Hm. simpl in Hm. destruct Hm as [<- | [<- | []]].
  - split.
    + unfold zero_nnls, nonneg3, c0, c1, c2. simpl. repeat split; lra.
    + intros [[u v] w] (Hu & Hv & Hw). unfold c0, c1, c2 in *. simpl in *.
      vm_compute scaled_matrix. vm_compute observations_of.
      unfold zero_nnls, rss, dot, c0, c1, c2, Qsum. simpl. nra.
  - split.
    + unfold zero_nnls, nonneg3, c0, c1, c2. simpl. repeat split; lra.
    + intros [[u v] w] (Hu & Hv & Hw). unfold c0, c1, c2 in *. simpl in *.
      vm_compute scaled_matrix. vm_compute observations_of.
      unfold zero_nnls, rss, dot, c0, c1, c2, Qsum. simpl. nra.
Qed.

Example negative_costs_negative_score :
  exists q,
    regression exact_std zero_nnls negative_df
    = Ok [CostModel.mk "wasm" 0 0 0 (Fin q)] /\ q == -4.
Proof. eexists. split; vm_compute; reflexivity. Qed.

(* ------------------------------------------------------------------ *)
(** ** [calc_delta] *)

Open Scope Z_scope.

Lemma row0_filter_model (df : list CostModel.row) (m : string) :
  In m (map CostModel.mode df) ->
  exists r, row0 (filter_model df m) = Ok r.
Proof.
  intros H. apply in_map_iff in H. destruct H as (r & Hr & Hin).
  assert (H : In r (filter_model df m)).
  { apply filter_In. split; [exact Hin|]. apply String.eqb_eq, Hr. }
  destruct (filter_model df m) as [|r' l]; [destruct H|].
  exists r'. reflexivity.
Qed.

Lemma row0_Ok_mode (df : list CostModel.row) (m : string) (r : CostModel.row) :
  row0 (filter_model df m) = Ok r -> In r df /\ CostModel.mode r = m.
Proof.
  intros H.
  assert (Hin : In r (filter_model df m)).
  { destruct (filter_model df m) as [|r' l]; [discriminate H|].
    injection H as ->. left. reflexivity. }
  apply filter_In in Hin. destruct Hin as [Hin Hm].
  split; [exact Hin | apply String.eqb_eq, Hm].
Qed.

Section CalcDeltaFacts.

Context {T : Type}.
Variable op : Z -> Z -> T.

Lemma delta_cells_named (row1 row2 : CostModel.row) :
  delta_cells op (named row1) (named row2) delta_keys
  = Ok (cost_cells op row1 row2).
Proof. reflexivity. Qed.

Lemma calc_delta_inner_Ok (df : list CostModel.row) (m2 : string)
    (row2 : CostModel.row) (modes : list string) (acc : list (Delta.row T)) :
  (forall m, In m modes -> In m (map CostModel.mode df)) ->
  calc_delta_inner op df m2 row2 modes acc
  = Ok (acc ++ inner_rows op df m2 row2 modes).
Proof.
  revert acc. induction modes as [|m1 modes IH]; intros acc Hin.
  - simpl. rewrite app_nil_r. reflexivity.
  - destruct (row0_filter_model df m1 (Hin m1 (or_introl eq_refl)))
      as [row1 Hrow1].
    unfold inner_rows. cbn [calc_delta_inner flat_map].
    rewrite Hrow1. cbn [bind].
    destruct (CostModel.cost_row row1 >=? CostModel.cost_row row2).
    + rewrite IH by (intros m Hm; apply Hin; right; exact Hm).
      reflexivity.
    + rewrite delta_cells_named. cbn [bind].
      rewrite IH by (intros m Hm; apply Hin; right; exact Hm).
      rewrite <- app_assoc. reflexivity.
Qed.

Lemma calc_delta_outer_Ok (df : list CostModel.row) (all rest : list string)
    (acc : list (Delta.row T)) :
  (forall m, In m all -> In m (map CostModel.mode df)) ->
  (forall m, In m rest -> In m (map CostModel.mode df)) ->
  calc_delta_outer op df all rest acc = Ok (acc ++ outer_rows op df all rest).
Proof.
  intros Hall. revert acc.
  induction rest as [|m2 rest IH]; intros acc Hin.
  - simpl. rewrite app_nil_r. reflexivity.
  - destruct (row0_filter_model df m2 (Hin m2 (or_introl eq_refl)))
      as [row2 Hrow2].
    unfold outer_rows. cbn [calc_delta_outer flat_map].
    rewrite Hrow2. cbn [bind].
    rewrite calc_delta_inner_Ok by exact Hall. cbn [bind].
    rewrite IH by (intros m Hm; apply Hin; right; exact Hm).
    rewrite <- app_assoc. reflexivity.
Qed.

Lemma calc_delta_Ok (df : list CostModel.row) :
  calc_delta op df
  = Ok (outer_rows op df (unique (map CostModel.mode df))
          (unique (map CostModel.mode df))).
Proof.
  unfold calc_delta.
  rewrite calc_delta_outer_Ok; [reflexivity| |];
    intros m Hm; apply (proj1 (unique_In _ _)), Hm.
Qed.

Lemma inner_rows_In (df : list CostModel.row) (m2 : string)
    (row2 : CostModel.row) (modes : list string) (d : Delta.row T) :
  In d (inner_rows op df m2 row2 modes) <->
  exists m1 row1,
    In m1 modes /\ row0 (filter_model df m1) = Ok row1 /\
    CostModel.cost_row row1 < CostModel.cost_row row2 /\
    d = Delta.mk m2 m1 (cost_cells op row1 row2).
Proof.
  unfold inner_rows. rewrite in_flat_map. split.
  - intros (m1 & Hm1 & Hd).
    destruct (row0 (filter_model df m1)) as [row1|e] eqn:E; [|destruct Hd].
    destruct (Z.geb_spec (CostModel.cost_row row1) (CostModel.cost_row row2))
      as [Hge|Hlt]; [destruct Hd|].
    destruct Hd as [<-|[]]. exists m1, row1. auto.
  - intros (m1 & row1 & Hm1 & E & Hlt & ->).
    exists m1. split; [exact Hm1|]. rewrite E.
    destruct (Z.geb_spec (CostModel.cost_row row1) (CostModel.cost_row row2))
      as [Hge|_]; [lia|]. left. reflexivity.
Qed.

Lemma outer_rows_In (df : list CostModel.row) (all rest : list string)
    (d : Delta.row T) :
  In d (outer_rows op df all rest) <->
  exists m1 m2 row1 row2,
    In m1 all /\ In m2 rest /\
    row0 (filter_model df m1) = Ok row1 /\
    row0 (filter_model df m2) = Ok row2 /\
    CostModel.cost_row row1 < CostModel.cost_row row2 /\
    d = Delta.mk m2 m1 (cost_cells op row1 row2).
Proof.
  unfold outer_rows. rewrite in_flat_map. split.
  - intros (m2 & Hm2 & Hd).
    destruct (row0 (filter_model df m2)) as [row2|e] eqn:E; [|destruct Hd].
    apply inner_rows_In in Hd.
    destruct Hd as (m1 & row1 & Hm1 & E1 & Hlt & ->).
    exists m1, m2, row1, row2. auto 10.
  - intros (m1 & m2 & row1 & row2 & Hm1 & Hm2 & E1 & E2 & Hlt & ->).
    exists m2. split; [exact Hm2|]. rewrite E2.
    apply inner_rows_In. exists m1, row1. auto.
Qed.

(** The cells of an emitted row, column by column. *)
Lemma cost_cells_columns (row1 row2 : CostModel.row) :
  map fst (cost_cells op row1 row2)
  = filter (String.prefix "cost_") CostModel.columns /\
  forall col,
    In col CostModel.columns -> String.prefix "cost_" col = true ->
    exists a b,
      cell_get (named row1) col = Ok (CInt a) /\
      cell_get (named row2) col = Ok (CInt b) /\
      In (col, op a b) (cost_cells op row1 row2).
Proof.
  split; [reflexivity|].
  intros col Hcol Hpre. unfold CostModel.columns in Hcol. simpl in Hcol.
  destruct Hcol as [<-|[<-|[<-|[<-|[<-|[]]]]]];
    try discriminate Hpre;
    eexists; eexists; (split; [reflexivity|]); (split; [reflexivity|]);
    simpl; auto.
Qed.

End CalcDeltaFacts.

Lemma row0_filter_first (df : list CostModel.row) (m : string)
    (r : CostModel.row) :
  row0 (filter_model df m) = Ok r <-> first_with_mode df m r.
Proof.
  unfold first_with_mode, filter_model. split.
  - induction df as [|r' df IH]; cbn [filter row0]; [discriminate|].
    destruct (String.eqb_spec (CostModel.mode r') m) as [Hm|Hm].
    + intros [= <-]. exists [], df. auto.
    + intros H. destruct (IH H) as (pre & post & -> & Hr & Hpre).
      exists (r' :: pre), post. auto.
  - intros (pre & post & -> & Hr & Hpre).
    induction Hpre as [|r' pre Hr' _ IH]; cbn [app filter].
    + rewrite (proj2 (String.eqb_eq _ _) Hr). reflexivity.
    + rewrite (proj2 (String.eqb_neq _ _) Hr'). exact IH.
Qed.

(** C2: [calc_delta] returns a frame that has a row with baseline [m1] and
    mode [m2] if and only if both are modes of [df] and the [cost_row] of
    the row of [m1] is strictly lower than that of the row of [m2]; the
    delta columns of every emitted row are the columns of [df] whose name
    starts with ['cost_'], and each carries [op(row1[col], row2[col])],
    where [row1] is the row of the baseline and [row2] the row of the
    mode. *)
Theorem calc_delta_emits_strictly_lower_pairs
    {T : Type} (op : Z -> Z -> T) (df : list CostModel.row) :
  exists out,
    calc_delta op df = Ok out /\
    (forall m1 m2,
       (exists d, In d out /\ Delta.baseline d = m1 /\ Delta.mode d = m2) <->
       (exists row1 row2,
          first_with_mode df m1 row1 /\
          first_with_mode df m2 row2 /\
          CostModel.cost_row row1 < CostModel.cost_row row2)) /\
    (forall d, In d out ->
       exists row1 row2,
         first_with_mode df (Delta.baseline d) row1 /\
         first_with_mode df (Delta.mode d) row2 /\
         map fst (Delta.deltas d)
         = filter (String.prefix "cost_") CostModel.columns /\
         Delta.deltas d
         = [("cost_row",
             op (CostModel.cost_row row1) (CostModel.cost_row row2));
            ("cost_call",
             op (CostModel.cost_call row1) (CostModel.cost_call row2));
            ("cost_cached",
             op (CostModel.cost_cached row1) (CostModel.cost_cached row2))]).
Proof.
  eexists. split; [apply calc_delta_Ok|]. split.
  - intros m1 m2. split.
    + intros (d & Hd & <- & <-). apply outer_rows_In in Hd.
      destruct Hd as (m1 & m2 & row1 & row2 & _ & _ & E1 & E2 & Hlt & ->).
      exists row1, row2. simpl.
      split; [|split]; [apply row0_filter_first, E1
                       |apply row0_filter_first, E2 | exact Hlt].
    + intros (row1 & row2 & E1 & E2 & Hlt).
      apply row0_filter_first in E1, E2.
      exists (Delta.mk m2 m1 (cost_cells op row1 row2)).
      split; [|split; reflexivity].
      apply outer_rows_In. exists m1, m2, row1, row2.
      pose proof (row0_Ok_mode _ _ _ E1) as [Hin1 Hmode1].
      pose proof (row0_Ok_mode _ _ _ E2) as [Hin2 Hmode2].
      repeat split; try assumption;
        apply unique_In, in_map_iff; eauto.
  - intros d Hd. apply outer_rows_In in Hd.
    destruct Hd as (m1 & m2 & row1 & row2 & _ & _ & E1 & E2 & Hlt & ->).
    exists row1, row2. simpl.
    split; [|split]; [apply row0_filter_first, E1
                     |apply row0_filter_first, E2 | split; reflexivity].
Qed.

(* ------------------------------------------------------------------ *)
(** ** The regular expressions *)

Lemma strip_prefix_spec (p s r : string) :
  strip_prefix p s = Some r <-> s = (p ++ r)%string.
Proof.
  revert s. induction p as [|a p IH]; intros s; simpl.
  - split; [intros [= ->]; reflexivity | intros ->; reflexivity].
  - destruct s as [|b s]; [split; discriminate|].
    destruct (Ascii.eqb_spec a b) as [->|Hne].
    + rewrite IH. split; [intros ->; reflexivity | intros [= ->]; reflexivity].
    + split; [discriminate | intros [= E _]; congruence].
Qed.

Lemma span_spec (f : ascii -> bool) (s a b : string) :
  span f s = (a, b) <->
  s = (a ++ b)%string /\ all_chars f a = true /\ starts_in f b = false.
Proof.
  split.
  - revert a b. induction s as [|c s IH]; intros a b; simpl.
    + intros [= <- <-]. auto.
    + destruct (f c) eqn:Ec.
      * destruct (span f s) as [a' b'] eqn:Es. intros [= <- <-].
        destruct (IH a' b' eq_refl) as (-> & Ha & Hb).
        simpl. rewrite Ec, Ha. auto.
      * intros [= <- <-]. simpl. auto.
  - intros (-> & Ha & Hb). induction a as [|c a IH]; simpl in *.
    + destruct b as [|c b]; [reflexivity|]. simpl in Hb. simpl.
      rewrite Hb. reflexivity.
    + apply andb_true_iff in Ha. destruct Ha as [Hc Ha].
      rewrite Hc, (IH Ha). reflexivity.
Qed.

Lemma fn_re_match_spec (s mode : string) :
  fn_re_match s = Some mode <-> fn_matches s mode.
Proof.
  unfold fn_re_match, fn_matches. split.
  - destruct (strip_prefix "bench_" s) as [r|] eqn:Ep; [|discriminate].
    apply strip_prefix_spec in Ep.
    destruct (span is_lower r) as [a b] eqn:Es. simpl.
    apply span_spec in Es. destruct Es as (-> & Ha & Hb).
    destruct a as [|c a]; [discriminate|]. intros [= <-].
    exists b. repeat split; try assumption. discriminate.
  - intros (rest & -> & Hne & Ha & Hb).
    rewrite (proj2 (strip_prefix_spec "bench_" _ (mode ++ rest)) eq_refl).
    rewrite (proj2 (span_spec is_lower _ mode rest)) by auto. simpl.
    destruct mode; [congruence | reflexivity].
Qed.

Lemma id_re_match_spec (s batchsize batches : string) :
  id_re_match s = Some (batchsize, batches) <->
  id_matches s batchsize batches.
Proof.
  unfold id_re_match, id_matches. split.
  - destruct (strip_prefix "batchsize_" s) as [r1|] eqn:Ep1; [|discriminate].
    apply strip_prefix_spec in Ep1.
    destruct (span is_digit r1) as [a r2] eqn:Es1.
    apply span_spec in Es1. destruct Es1 as (-> & Ha & _).
    destruct a as [|c a]; [discriminate|].
    destruct (strip_prefix "_batches_" r2) as [r3|] eqn:Ep2; [|discriminate].
    apply strip_prefix_spec in Ep2. subst r2.
    destruct (span is_digit r3) as [b rest] eqn:Es2. simpl.
    apply span_spec in Es2. destruct Es2 as (-> & Hb & Hrest).
    destruct b as [|c' b]; [discriminate|]. intros [= <- <-].
    exists rest. subst s. repeat split; try assumption; discriminate.
  - intros (rest & -> & Hne1 & Ha & Hne2 & Hb & Hrest).
    rewrite (proj2 (strip_prefix_spec "batchsize_" _
                      (batchsize ++ "_batches_" ++ batches ++ rest)) eq_refl).
    rewrite (proj2 (span_spec is_digit _ batchsize
                      ("_batches_" ++ batches ++ rest)))
      by (repeat split; auto).
    destruct batchsize as [|c a]; [congruence|].
    rewrite (proj2 (strip_prefix_spec "_batches_" _ (batches ++ rest)) eq_refl).
    rewrite (proj2 (span_spec is_digit _ batches rest)) by auto. simpl.
    destruct batches; [congruence | reflexivity].
Qed.

Lemma digit_value_nonneg (c : ascii) :
  is_digit c = true -> 0 <= digit_value c <= 9.
Proof.
  unfold is_digit, digit_value. cbv zeta.
  rewrite andb_true_iff, !N.leb_le.
  generalize (N_of_ascii c). intros n Hn. lia.
Qed.

Lemma int_digits_from_nonneg (s : string) (acc : Z) :
  0 <= acc -> all_chars is_digit s = true -> 0 <= int_digits_from acc s.
Proof.
  revert acc. induction s as [|c s IH]; intros acc Hacc Hs;
    cbn [int_digits_from all_chars] in *.
  - exact Hacc.
  - apply andb_true_iff in Hs. destruct Hs as [Hc Hs].
    apply IH; [|exact Hs]. pose proof (digit_value_nonneg c Hc). lia.
Qed.

Lemma int_of_digits_nonneg (s : string) :
  all_chars is_digit s = true -> 0 <= int_of_digits s.
Proof.
  apply int_digits_from_nonneg. lia.
Qed.

(** [int] reads its argument as a decimal numeral: appending a digit
    multiplies by ten and adds the digit. *)
Lemma int_of_digits_snoc (s : string) (c : ascii) :
  int_of_digits (s ++ String c EmptyString)%string
  = 10 * int_of_digits s + digit_value c.
Proof.
  unfold int_of_digits. generalize 0.
  induction s as [|d s IH]; intros acc; cbn [String.append int_digits_from];
    [reflexivity | apply IH].
Qed.

(* ------------------------------------------------------------------ *)
(** ** [parse_data] *)

Lemma re_match_Ok_inv {G : Type} (re : string -> option G) (v : pyval)
    (x : option G) :
  re_match re v = Ok x -> exists s, v = PStr s /\ x = re s.
Proof.
  destruct v; simpl; try discriminate. intros [= <-]. eauto.
Qed.

Lemma assert_some_Ok_inv {G : Type} (x : option G) (g : G) :
  assert_some x = Ok g -> x = Some g.
Proof.
  destruct x; simpl; [intros [= ->]; reflexivity | discriminate].
Qed.

Lemma dict_get_assoc_first (d : list (string * pyval)) (k : string)
    (x : pyval) :
  dict_get d k = Some x <-> assoc_first d k x.
Proof.
  induction d as [|[k' y] d IH]; cbn [dict_get].
  - split; [discriminate | inversion 1].
  - destruct (String.eqb k' k) eqn:E.
    + apply String.eqb_eq in E. subst k'. split.
      * intros [= ->]. constructor.
      * inversion 1; subst; [reflexivity | congruence].
    + apply String.eqb_neq in E. split.
      * intros H. constructor; [exact E | apply IH, H].
      * inversion 1; subst; [congruence | apply IH; assumption].
Qed.

Lemma getitem_has_item (v : pyval) (k : string) (x : pyval) :
  getitem v k = Ok x <-> has_item v k x.
Proof.
  unfold has_item. split.
  - destruct v; simpl; try discriminate.
    destruct (dict_get d k) as [y|] eqn:E; [|discriminate].
    intros [= ->]. exists d. split; [reflexivity|].
    apply dict_get_assoc_first, E.
  - intros (d & -> & H). apply dict_get_assoc_first in H. simpl.
    rewrite H. reflexivity.
Qed.

Lemma profile_cost_has_path (profile : pyval) (metric : Metric) (c : pyval) :
  profile_cost profile (metric_key metric) = Ok c <->
  has_path profile (cost_path metric) c.
Proof.
  unfold profile_cost, cost_path. cbn [has_path]. split.
  - intros H. do 7 bind_inv H.
    repeat match goal with
           | G : getitem _ _ = Ok _ |- _ => apply getitem_has_item in G
           end.
    eauto 20.
  - intros (v1 & H1 & v2 & H2 & v3 & H3 & v4 & H4 & v5 & H5 & v6 & H6
            & v7 & H7 & v8 & H8 & <-).
    repeat match goal with
           | G : has_item _ _ _ |- _ => apply getitem_has_item in G
           end.
    rewrite H1. cbn [bind]. rewrite H2. cbn [bind]. rewrite H3. cbn [bind].
    rewrite H4. cbn [bind]. rewrite H5. cbn [bind]. rewrite H6. cbn [bind].
    rewrite H7. cbn [bind]. exact H8.
Qed.

Lemma valgrind_name_metric_key (metric : Metric) :
  valgrind_name metric = Ok (metric_key metric).
Proof.
  destruct metric; reflexivity.
Qed.

Lemma int_digits_from_decimal (s : string) (acc : Z) :
  int_digits_from acc s
  = acc * 10 ^ Z.of_nat (String.length s) + decimal_value s.
Proof.
  revert acc. induction s as [|c s IH]; intros acc;
    cbn [int_digits_from decimal_value String.length].
  - simpl. lia.
  - rewrite IH. unfold digit_value. rewrite Nat2Z.inj_succ, Z.pow_succ_r by lia.
    ring.
Qed.

Lemma int_of_digits_decimal (s : string) :
  int_of_digits s = decimal_value s.
Proof.
  unfold int_of_digits. rewrite int_digits_from_decimal. lia.
Qed.

Lemma py_int_of_str_spec (s : string) (z : Z) :
  py_int_of_str s = Ok z <->
  (String.length s <= 4300)%nat /\ z = decimal_value s.
Proof.
  unfold py_int_of_str, max_str_digits.
  destruct (Nat.ltb_spec 4300 (String.length s)) as [Hlt|Hle].
  - split; [discriminate | intros [H _]; lia].
  - rewrite int_of_digits_decimal. split.
    + intros [= <-]. auto.
    + intros [_ ->]. reflexivity.
Qed.

Lemma decimal_value_nonneg (s : string) :
  all_chars is_digit s = true -> 0 <= decimal_value s.
Proof.
  intros H. rewrite <- int_of_digits_decimal.
  apply int_of_digits_nonneg, H.
Qed.

(** The profile that the unpacking of [profiles] hands to the lookups is
    the one element of a list, when the lookups succeed. *)
Lemma unpack_single_dict (profiles profile : pyval) (k : string)
    (x : pyval) :
  unpack_single profiles = Ok profile -> has_item profile k x ->
  profiles = PList [profile].
Proof.
  intros H (d & -> & _).
  destruct profiles as [| | | |s|l|l]; simpl in H; try discriminate.
  - destruct s as [|c [|c' s]]; discriminate.
  - destruct l as [|y [|z l]]; try discriminate.
    injection H as ->. reflexivity.
  - destruct l as [|[k' y] [|z l]]; discriminate.
Qed.

Lemma raw_of_row_of (r : parsed_line) : raw_of (row_of r) = r.
Proof.
  destruct r as [[[m bs] b] c]. reflexivity.
Qed.

Lemma row_of_raw_of (o : Observation.row) : row_of (raw_of o) = o.
Proof.
  destruct o. reflexivity.
Qed.

Section ParseDataFacts.

Variable json_loads : string -> result pyval.
Variable dtype_error : list parsed_line -> option exn.

Lemma parse_line_spec (valgrind_metric line : string) (m : string)
    (bs b : Z) (c : pyval) :
  parse_line json_loads valgrind_metric line = Ok (m, bs, b, c) <->
  exists data fn id g1 g2 profiles profile,
    json_loads line = Ok data /\
    getitem data "function_name" = Ok (PStr fn) /\
    fn_re_match fn = Some m /\
    getitem data "id" = Ok (PStr id) /\
    id_re_match id = Some (g1, g2) /\
    py_int_of_str g1 = Ok bs /\ py_int_of_str g2 = Ok b /\
    getitem data "profiles" = Ok profiles /\
    unpack_single profiles = Ok profile /\
    profile_cost profile valgrind_metric = Ok c.
Proof.
  unfold parse_line. split.
  - intros H.
    apply bind_Ok_inv in H. destruct H as (data & Hdata & H).
    apply bind_Ok_inv in H. destruct H as (fnv & Hfn & H).
    apply bind_Ok_inv in H. destruct H as (fnp & Hfnp & H).
    apply bind_Ok_inv in H. destruct H as (mode & Hmode & H).
    apply bind_Ok_inv in H. destruct H as (idv & Hid & H).
    apply bind_Ok_inv in H. destruct H as (idp & Hidp & H).
    apply bind_Ok_inv in H. destruct H as ([g1 g2] & Hgroups & H).
    apply bind_Ok_inv in H. destruct H as (bs' & Hbs & H).
    apply bind_Ok_inv in H. destruct H as (b' & Hb & H).
    apply bind_Ok_inv in H. destruct H as (profiles & Hprofiles & H).
    apply bind_Ok_inv in H. destruct H as (profile & Hprofile & H).
    apply bind_Ok_inv in H. destruct H as (c' & Hc & H).
    injection H as <- <- <- <-.
    apply re_match_Ok_inv in Hfnp. destruct Hfnp as (fn & -> & ->).
    apply re_match_Ok_inv in Hidp. destruct Hidp as (id & -> & ->).
    apply assert_some_Ok_inv in Hmode, Hgroups.
    exists data, fn, id, g1, g2, profiles, profile. auto 12.
  - intros (data & fn & id & g1 & g2 & profiles & profile & Hdata & Hfn
            & Hm & Hid & Hg & Hbs & Hb & Hprofiles & Hprofile & Hc).
    rewrite Hdata. cbn [bind]. rewrite Hfn. cbn [bind re_match].
    rewrite Hm. cbn [bind assert_some]. rewrite Hid. cbn [bind re_match].
    rewrite Hg. cbn [bind assert_some fst snd]. rewrite Hbs. cbn [bind].
    rewrite Hb. cbn [bind]. rewrite Hprofiles. cbn [bind].
    rewrite Hprofile. cbn [bind]. rewrite Hc. reflexivity.
Qed.

Lemma parse_lines_spec (valgrind_metric : string) (fp : list string)
    (acc out : list parsed_line) :
  parse_lines json_loads valgrind_metric fp acc = Ok out <->
  exists rs,
    out = acc ++ rs /\
    Forall2 (fun line r => parse_line json_loads valgrind_metric line = Ok r)
      fp rs.
Proof.
  revert acc. induction fp as [|line fp IH]; intros acc;
    cbn [parse_lines].
  - split.
    + intros [= <-]. exists []. rewrite app_nil_r. split; constructor.
    + intros (rs & -> & H). inversion H. rewrite app_nil_r. reflexivity.
  - split.
    + intros H. apply bind_Ok_inv in H. destruct H as (r & Hr & H).
      apply IH in H. destruct H as (rs & -> & Hrs).
      exists (r :: rs). rewrite <- app_assoc. split; [reflexivity|].
      constructor; assumption.
    + intros (rs & -> & H). inversion H as [|? r ? rs' Hr Hrs]; subst.
      rewrite Hr. cbn [bind]. apply IH. exists rs'.
      rewrite <- app_assoc. split; [reflexivity | exact Hrs].
Qed.

(** The body of the loop returns the four values of an observation exactly
    when the line and the observation are related. *)
Lemma line_observation_spec (metric : Metric) (line : string)
    (o : Observation.row) :
  line_observation json_loads metric line o <->
  parse_line json_loads (metric_key metric) line = Ok (raw_of o).
Proof.
  unfold raw_of. rewrite parse_line_spec. unfold line_observation. split.
  - intros (data & fn & id & g1 & g2 & profile & Hdata & Hfn & Hm & Hid
            & Hg & Hl1 & Hl2 & Hbs & Hb & Hprofiles & Hc).
    exists data, fn, id, g1, g2, (PList [profile]), profile.
    rewrite !py_int_of_str_spec.
    repeat split; try assumption.
    + apply getitem_has_item, Hfn.
    + apply fn_re_match_spec, Hm.
    + apply getitem_has_item, Hid.
    + apply id_re_match_spec, Hg.
    + apply getitem_has_item, Hprofiles.
    + apply profile_cost_has_path, Hc.
  - intros (data & fn & id & g1 & g2 & profiles & profile & Hdata & Hfn
            & Hm & Hid & Hg & Hbs & Hb & Hprofiles & Hprofile & Hc).
    apply profile_cost_has_path in Hc.
    assert (Hp : profiles = PList [profile]).
    { destruct Hc as (w & Hw & _).
      eapply unpack_single_dict; [exact Hprofile | exact Hw]. }
    subst profiles. apply py_int_of_str_spec in Hbs, Hb.
    destruct Hbs as [Hl1 Hbs], Hb as [Hl2 Hb].
    exists data, fn, id, g1, g2, profile.
    repeat split; try assumption.
    + apply getitem_has_item, Hfn.
    + apply fn_re_match_spec, Hm.
    + apply getitem_has_item, Hid.
    + apply id_re_match_spec, Hg.
    + apply getitem_has_item, Hprofiles.
Qed.

(** [parse_data] returns a frame exactly when every line of the file is
    well formed and the constructor of the frame accepts the values; the
    frame has the observations of the lines, in the order of the lines. *)
Lemma parse_data_spec (file : list string) (metric : Metric)
    (df : list Observation.row) :
  parse_data json_loads dtype_error file metric = Ok df <->
  Forall2 (line_observation json_loads metric) file df /\
  dtype_error (map raw_of df) = None.
Proof.
  unfold parse_data. rewrite valgrind_name_metric_key. cbn [bind]. split.
  - intros H. apply bind_Ok_inv in H. destruct H as (rows & Hrows & H).
    apply parse_lines_spec in Hrows. destruct Hrows as (rs & -> & Hrs).
    simpl in H. unfold DataFrame in H.
    destruct (dtype_error rs) as [e|] eqn:E; [discriminate|].
    injection H as <-. rewrite map_map.
    rewrite (map_ext _ (fun r => r) raw_of_row_of), map_id.
    split; [|exact E]. clear E.
    induction Hrs as [|line r file rs Hr _ IH]; constructor; [|exact IH].
    apply line_observation_spec. rewrite raw_of_row_of. exact Hr.
  - intros [H E].
    assert (Hrows : Forall2
              (fun line r =>
                 parse_line json_loads (metric_key metric) line = Ok r)
              file (map raw_of df)).
    { clear E.
      induction H as [|line o file df Hlo _ IH]; cbn [map]; constructor;
        [|exact IH].
      apply line_observation_spec, Hlo. }
    rewrite (proj2 (parse_lines_spec _ file [] (map raw_of df)))
      by (exists (map raw_of df); auto).
    cbn [bind]. unfold DataFrame. rewrite E, map_map.
    rewrite (map_ext _ (fun o => o) row_of_raw_of), map_id. reflexivity.
Qed.

End ParseDataFacts.

Lemma Forall2_In_left {A B : Type} (R : A -> B -> Prop) (la : list A)
    (lb : list B) (a : A) :
  Forall2 R la lb -> In a la -> exists b, In b lb /\ R a b.
Proof.
  induction 1 as [|a' b la lb Hab _ IH]; intros Hin; [destruct Hin|].
  destruct Hin as [<-|Hin].
  - exists b. split; [left; reflexivity | exact Hab].
  - destruct (IH Hin) as (b' & Hb' & Hr). exists b'.
    split; [right|]; assumption.
Qed.

(** C6: [parse_data] returns a frame exactly when every line decodes to a
    record whose [function_name] and [id] match the two patterns and whose
    [profiles] is a list of one profile that has a value at the place of the
    chosen metric, and the constructor of the frame accepts the columns; the
    frame then has one observation per line, in the order of the lines,
    with the mode being the lowercase letters after ['bench_'], batch size
    and batch count the decimal values after ['batchsize_'] and
    ['_batches_'] (numerals of a length the interpreter converts), and the
    cost the value of the metric.  A line whose [function_name] or [id] does
    not match makes [parse_data] raise. *)
Theorem parse_data_one_observation_per_line
    (json_loads : string -> result pyval)
    (dtype_error : list parsed_line -> option exn)
    (file : list string) (metric : Metric) :
  (forall df,
     parse_data json_loads dtype_error file metric = Ok df <->
     Forall2 (line_observation json_loads metric) file df /\
     dtype_error (map raw_of df) = None) /\
  (forall df,
     parse_data json_loads dtype_error file metric = Ok df ->
     List.length df = List.length file) /\
  (forall line data,
     In line file -> json_loads line = Ok data ->
     (forall fn m, has_item data "function_name" (PStr fn) ->
                   ~ fn_matches fn m) \/
     (forall id g1 g2, has_item data "id" (PStr id) ->
                       ~ id_matches id g1 g2) ->
     raises (parse_data json_loads dtype_error file metric)).
Proof.
  split; [intros df; apply parse_data_spec|]. split.
  - intros df H. apply parse_data_spec in H. destruct H as [H _].
    symmetry. eapply Forall2_length, H.
  - intros line data Hin Hdata Hbad.
    destruct (parse_data json_loads dtype_error file metric) as [df|e] eqn:E;
      [|exists e; reflexivity].
    exfalso. apply parse_data_spec in E. destruct E as [H _].
    destruct (Forall2_In_left _ _ _ _ H Hin) as (o & _ & Ho).
    destruct Ho as (data' & fn & id & g1 & g2 & profile
                    & Hdata' & Hfn & Hm & Hid & Hg & _).
    assert (data' = data) by congruence. subst data'.
    destruct Hbad as [Hbad|Hbad]; [exact (Hbad _ _ Hfn Hm)|].
    exact (Hbad _ _ _ Hid Hg).
Qed.

Example example_parse_data :
  parse_data example_loads uniform_columns example_file cycles
  = Ok [Observation.mk "wasm" 3 1 (PInt 14);
        Observation.mk "native" 1 3 (PInt 10)].
Proof. vm_compute. reflexivity. Qed.

Example example_parse_data_instructions :
  parse_data example_loads uniform_columns example_file instructions
  = Ok [Observation.mk "wasm" 3 1 (PInt 9);
        Observation.mk "native" 1 3 (PInt 6)].
Proof. vm_compute. reflexivity. Qed.

Lemma parse_data_one_observation_per_line_witness :
  List.length [Observation.mk "wasm" 3 1 (PInt 14);
               Observation.mk "native" 1 3 (PInt 10)]
  = List.length example_file /\
  raises (parse_data example_loads uniform_columns malformed_file cycles).
Proof.
  split.
  - apply (parse_data_one_observation_per_line
             example_loads uniform_columns example_file cycles).
    vm_compute. reflexivity.
  - apply (proj2 (proj2 (parse_data_one_observation_per_line
                           example_loads uniform_columns malformed_file
                           cycles))
             "line upper case"
             (example_record "bench_WASM" "batchsize_3_batches_1" 14 9)).
    + right. left. reflexivity.
    + reflexivity.
    + left. intros fn m (d & [= <-] & Hd).
      inversion Hd as [|? ? ? ? ? Hk _]; subst; [|congruence].
      intros (rest & Hfn & Hne & Hlow & _).
      injection Hfn as Hfn. destruct m as [|c m]; [congruence|].
      injection Hfn as <- _. discriminate Hlow.
Defined.

(** C5, as stated, fails: a line whose [id] is ['batchsize_0_batches_0'] and
    whose metric is [-5] parses into an observation with batch size 0, batch
    count 0 and cost -5; a line whose metric is the string ['abc'] parses
    into an observation whose cost is that string. *)
Lemma parse_data_zero_shape_negative_cost :
  (parse_data example_loads uniform_columns zero_file cycles
   = Ok [Observation.mk "wasm" 0 0 (PInt (-5))] /\
   ~ 0 < Observation.batchsize (Observation.mk "wasm" 0 0 (PInt (-5))) /\
   ~ 0 < Observation.batches (Observation.mk "wasm" 0 0 (PInt (-5))) /\
   ~ nonneg_number
       (Observation.cost (Observation.mk "wasm" 0 0 (PInt (-5))))) /\
  (parse_data example_loads uniform_columns text_file cycles
   = Ok [Observation.mk "wasm" 3 1 (PStr "abc")] /\
   ~ nonneg_number
       (Observation.cost (Observation.mk "wasm" 3 1 (PStr "abc")))).
Proof.
  split; (split; [vm_compute; reflexivity|]); simpl.
  - repeat split; lia.
  - intros [].
Qed.

(** C5, as amended: in every observation [parse_data] returns, batch size
    and batch count are the values of the two digit runs of the [id] of its
    line, integers that are not negative, and the cost is the value the
    single profile of the line holds at the place of the metric, of whatever
    type and sign. *)
Theorem parse_data_shapes_nonneg
    (json_loads : string -> result pyval)
    (dtype_error : list parsed_line -> option exn)
    (file : list string) (metric : Metric) (df : list Observation.row) :
  parse_data json_loads dtype_error file metric = Ok df ->
  Forall2 (fun line o =>
             0 <= Observation.batchsize o /\ 0 <= Observation.batches o /\
             exists data id g1 g2 profile,
               json_loads line = Ok data /\
               has_item data "id" (PStr id) /\ id_matches id g1 g2 /\
               Observation.batchsize o = decimal_value g1 /\
               Observation.batches o = decimal_value g2 /\
               has_item data "profiles" (PList [profile]) /\
               has_path profile (cost_path metric) (Observation.cost o))
    file df.
Proof.
  intros H. apply parse_data_spec in H. destruct H as [H _].
  induction H as [|line o file df Hlo _ IH]; constructor; [|exact IH].
  destruct Hlo as (data & fn & id & g1 & g2 & profile
                   & Hdata & _ & _ & Hid & Hg & _ & _ & Hbs & Hb & Hprofiles
                   & Hc).
  pose proof Hg as (rest & _ & _ & Hg1 & _ & Hg2 & _).
  rewrite Hbs, Hb.
  split; [|split]; try (apply decimal_value_nonneg; assumption).
  exists data, id, g1, g2, profile. rewrite <- Hbs, <- Hb. auto 10.
Qed.

Lemma parse_data_shapes_nonneg_witness :
  Forall2 (fun line o =>
             0 <= Observation.batchsize o /\ 0 <= Observation.batches o /\
             exists data id g1 g2 profile,
               example_loads line = Ok data /\
               has_item data "id" (PStr id) /\ id_matches id g1 g2 /\
               Observation.batchsize o = decimal_value g1 /\
               Observation.batches o = decimal_value g2 /\
               has_item data "profiles" (PList [profile]) /\
               has_path profile (cost_path cycles) (Observation.cost o))
    example_file
    [Observation.mk "wasm" 3 1 (PInt 14);
     Observation.mk "native" 1 3 (PInt 10)].
Proof.
  apply (parse_data_shapes_nonneg example_loads uniform_columns example_file
           cycles).
  vm_compute. reflexivity.
Defined.

(* ------------------------------------------------------------------ *)
(** ** Frames as objects: what a call creates and what it leaves alone *)

Section ObjectFacts.

Context {T : Type}.

Lemma runs_mret {A : Type} (a : A) (h : heap T) (Q : A -> heap T -> Prop) :
  Q a h -> runs (mret a) h Q.
Proof.
  intros H. exists a, []. rewrite app_nil_r. split; [reflexivity | exact H].
Qed.

Lemma runs_mbind {A B : Type} (c : M T A) (k : A -> M T B) (h : heap T)
    (Q : B -> heap T -> Prop) :
  runs c h (fun a h' => runs (k a) h' Q) -> runs (mbind c k) h Q.
Proof.
  intros (a & n1 & Hc & b & n2 & Hk & HQ).
  exists b, (n1 ++ n2). unfold mbind. rewrite Hc, app_assoc.
  split; assumption.
Qed.

Lemma runs_lift {A : Type} (c : result A) (a : A) (h : heap T)
    (Q : A -> heap T -> Prop) :
  c = Ok a -> Q a h -> runs (lift c) h Q.
Proof.
  intros -> H. exists a, []. rewrite app_nil_r.
  split; [reflexivity | exact H].
Qed.

Lemma runs_new (f : frame T) (h : heap T) (Q : ref -> heap T -> Prop) :
  Q (List.length h) (h ++ [f]) -> runs (new f) h Q.
Proof.
  intros H. exists (List.length h), [f]. split; [reflexivity | exact H].
Qed.

Lemma runs_load_input (r : ref) (rows : list Input.row) (h : heap T)
    (Q : list Input.row -> heap T -> Prop) :
  nth_error h r = Some (InputFrame rows) -> Q rows h ->
  runs (load_input r) h Q.
Proof.
  intros Hr H. exists rows, []. rewrite app_nil_r. unfold load_input.
  rewrite Hr. split; [reflexivity | exact H].
Qed.

Lemma runs_load_extended (r : ref) (rows : list Extended.row) (h : heap T)
    (Q : list Extended.row -> heap T -> Prop) :
  nth_error h r = Some (ExtendedFrame rows) -> Q rows h ->
  runs (load_extended r) h Q.
Proof.
  intros Hr H. exists rows, []. rewrite app_nil_r. unfold load_extended.
  rewrite Hr. split; [reflexivity | exact H].
Qed.

Lemma runs_load_model (r : ref) (rows : list CostModel.row) (h : heap T)
    (Q : list CostModel.row -> heap T -> Prop) :
  nth_error h r = Some (CostModelFrame rows) -> Q rows h ->
  runs (load_model r) h Q.
Proof.
  intros Hr H. exists rows, []. rewrite app_nil_r. unfold load_model.
  rewrite Hr. split; [reflexivity | exact H].
Qed.

(** An object keeps its contents when the heap grows. *)
Lemma nth_error_extend (h news : heap T) (r : ref) (f : frame T) :
  nth_error h r = Some f -> nth_error (h ++ news) r = Some f.
Proof.
  intros H. rewrite nth_error_app1; [exact H|].
  apply nth_error_Some. congruence.
Qed.

Lemma nth_error_new (h : heap T) (f : frame T) :
  nth_error (h ++ [f]) (List.length h) = Some f.
Proof.
  rewrite nth_error_app2, Nat.sub_diag by lia. reflexivity.
Qed.

Variable column_std : list Q -> Q.
Variable nnls : list vec3 -> list Q -> vec3.

Lemma fit_modes_obj_runs (df : ref) (ext : list Extended.row)
    (modes : list string) (acc : list CostModel.row) (h : heap T)
    (Q : list CostModel.row -> heap T -> Prop) :
  nth_error h df = Some (ExtendedFrame ext) ->
  (forall news,
     Q (acc ++ map (fun m => model_row column_std nnls (filter_mode ext m) m)
                 modes) (h ++ news)) ->
  runs (fit_modes_obj column_std nnls df modes acc) h Q.
Proof.
  revert acc h. induction modes as [|m modes IH]; intros acc h Hdf HQ.
  - apply runs_mret. specialize (HQ []). simpl in HQ.
    rewrite !app_nil_r in HQ. exact HQ.
  - cbn [fit_modes_obj].
    apply runs_mbind, runs_mbind.
    apply (runs_load_extended _ _ _ _ Hdf).
    apply runs_new, runs_mbind.
    apply (runs_load_extended _ _ _ _ (nth_error_new _ _)).
    apply runs_mbind.
    apply (runs_lift _ _ _ _ (fit_sub_Ok _ _ _ _)).
    apply IH; [apply nth_error_extend, Hdf|].
    intros news. rewrite <- !app_assoc. apply HQ.
Qed.

Lemma regression_obj_runs (df : ref) (rows : list Input.row) (h : heap T) :
  nth_error h df = Some (InputFrame rows) ->
  runs (regression_obj column_std nnls df) h
    (fun out h' =>
       (List.length h <= out)%nat /\
       nth_error h' out
       = Some (CostModelFrame
                 (sort_by_cost_row (model_rows column_std nnls rows)))).
Proof.
  intros Hdf. unfold regression_obj.
  apply runs_mbind, runs_mbind.
  apply (runs_load_input _ _ _ _ Hdf).
  apply runs_new, runs_mbind, runs_mbind.
  apply (runs_load_extended _ _ _ _ (nth_error_new _ _)).
  apply runs_mret, runs_mbind.
  apply (fit_modes_obj_runs _ (with_totalrows rows));
    [apply nth_error_new|].
  intros news. apply runs_mbind, runs_new, runs_mbind.
  apply (runs_load_model _ _ _ _ (nth_error_new _ _)).
  apply runs_new. split.
  - rewrite !length_app. lia.
  - rewrite nth_error_new, with_totalrows_mode. reflexivity.
Qed.

Variable op : Z -> Z -> T.

Lemma first_row_obj_runs (df : ref) (rows : list CostModel.row)
    (m : string) (row : CostModel.row) (h : heap T)
    (Q : CostModel.row -> heap T -> Prop) :
  nth_error h df = Some (CostModelFrame rows) ->
  row0 (filter_model rows m) = Ok row ->
  (forall news, Q row (h ++ news)) ->
  runs (first_row_obj df m) h Q.
Proof.
  intros Hdf Hrow HQ. unfold first_row_obj.
  apply runs_mbind, runs_mbind.
  apply (runs_load_model _ _ _ _ Hdf).
  apply runs_new, runs_mbind.
  apply (runs_load_model _ _ _ _ (nth_error_new _ _)).
  apply (runs_lift _ _ _ _ Hrow), HQ.
Qed.

Lemma calc_delta_inner_obj_runs (df : ref) (rows : list CostModel.row)
    (m2 : string) (row2 : CostModel.row) (modes : list string)
    (acc : list (Delta.row T)) (h : heap T)
    (Q : list (Delta.row T) -> heap T -> Prop) :
  nth_error h df = Some (CostModelFrame rows) ->
  (forall m, In m modes -> In m (map CostModel.mode rows)) ->
  (forall news, Q (acc ++ inner_rows op rows m2 row2 modes) (h ++ news)) ->
  runs (calc_delta_inner_obj op df m2 row2 modes acc) h Q.
Proof.
  revert acc h. induction modes as [|m1 modes IH]; intros acc h Hdf Hin HQ.
  - apply runs_mret. specialize (HQ []). simpl in HQ.
    rewrite !app_nil_r in HQ. exact HQ.
  - destruct (row0_filter_model rows m1 (Hin m1 (or_introl eq_refl)))
      as [row1 Hrow1].
    cbn [calc_delta_inner_obj]. apply runs_mbind.
    apply (first_row_obj_runs _ _ _ _ _ _ Hdf Hrow1). intros n1.
    revert HQ. unfold inner_rows. cbn [flat_map]. rewrite Hrow1.
    fold (inner_rows op rows m2 row2 modes). intros HQ.
    destruct (CostModel.cost_row row1 >=? CostModel.cost_row row2)%Z.
    + apply IH; [apply nth_error_extend, Hdf | auto with datatypes |].
      intros news. rewrite <- app_assoc. apply HQ.
    + apply runs_mbind.
      apply (runs_lift _ _ _ _ (delta_cells_named op row1 row2)).
      apply IH; [apply nth_error_extend, Hdf | auto with datatypes |].
      intros news. rewrite <- !app_assoc. apply HQ.
Qed.

Lemma calc_delta_outer_obj_runs (df : ref) (rows : list CostModel.row)
    (all rest : list string) (acc : list (Delta.row T)) (h : heap T)
    (Q : list (Delta.row T) -> heap T -> Prop) :
  nth_error h df = Some (CostModelFrame rows) ->
  (forall m, In m all -> In m (map CostModel.mode rows)) ->
  (forall m, In m rest -> In m (map CostModel.mode rows)) ->
  (forall news, Q (acc ++ outer_rows op rows all rest) (h ++ news)) ->
  runs (calc_delta_outer_obj op df all rest acc) h Q.
Proof.
  intros Hdf Hall. revert acc h Hdf.
  induction rest as [|m2 rest IH]; intros acc h Hdf Hin HQ.
  - apply runs_mret. specialize (HQ []). simpl in HQ.
    rewrite !app_nil_r in HQ. exact HQ.
  - destruct (row0_filter_model rows m2 (Hin m2 (or_introl eq_refl)))
      as [row2 Hrow2].
    cbn [calc_delta_outer_obj]. apply runs_mbind.
    apply (first_row_obj_runs _ _ _ _ _ _ Hdf Hrow2). intros n1.
    revert HQ. unfold outer_rows. cbn [flat_map]. rewrite Hrow2.
    fold (outer_rows op rows all rest). intros HQ.
    apply runs_mbind.
    apply (calc_delta_inner_obj_runs _ rows);
      [apply nth_error_extend, Hdf | exact Hall |].
    intros n2.
    apply IH; [do 2 apply nth_error_extend; exact Hdf
              | auto with datatypes |].
    intros news. rewrite <- !app_assoc. apply HQ.
Qed.

Lemma calc_delta_obj_runs (df : ref) (rows : list CostModel.row)
    (h : heap T) :
  nth_error h df = Some (CostModelFrame rows) ->
  runs (calc_delta_obj op df) h
    (fun out h' =>
       (List.length h <= out)%nat /\
       nth_error h' out
       = Some (DeltaFrame
                 (outer_rows op rows (unique (map CostModel.mode rows))
                    (unique (map CostModel.mode rows))))).
Proof.
  intros Hdf. unfold calc_delta_obj.
  apply runs_mbind, runs_mbind.
  apply (runs_load_model _ _ _ _ Hdf).
  apply runs_mret, runs_mbind.
  apply (calc_delta_outer_obj_runs _ rows); [exact Hdf | | |];
    try (intros m Hm; apply (proj1 (unique_In _ _)), Hm).
  intros news. apply runs_new. split.
  - rewrite length_app. lia.
  - apply nth_error_new.
Qed.

End ObjectFacts.

(** C7: on objects, [regression] and [calc_delta] return a reference to a
    frame that did not exist before the call, holding the result computed
    from the contents of the argument, and every frame that existed before
    the call, the argument included, has the contents it had. *)
Theorem regression_and_calc_delta_leave_frames_unchanged
    {T : Type} (column_std : list Q -> Q)
    (nnls : list vec3 -> list Q -> vec3) (op : Z -> Z -> T)
    (h : heap T) (df : ref) :
  (forall rows,
     nth_error h df = Some (InputFrame rows) ->
     exists out h' model,
       regression_obj column_std nnls df h = Ok (out, h') /\
       regression column_std nnls rows = Ok model /\
       nth_error h' out = Some (CostModelFrame model) /\
       nth_error h out = None /\
       forall r f, nth_error h r = Some f -> nth_error h' r = Some f) /\
  (forall rows,
     nth_error h df = Some (CostModelFrame rows) ->
     exists out h' delta,
       calc_delta_obj op df h = Ok (out, h') /\
       calc_delta op rows = Ok delta /\
       nth_error h' out = Some (DeltaFrame delta) /\
       nth_error h out = None /\
       forall r f, nth_error h r = Some f -> nth_error h' r = Some f).
Proof.
  split; intros rows Hdf.
  - destruct (regression_obj_runs column_std nnls df rows h Hdf)
      as (out & news & Hrun & Hnew & Hout).
    exists out, (h ++ news),
      (sort_by_cost_row (model_rows column_std nnls rows)).
    split; [exact Hrun|]. split; [apply regression_Ok|].
    split; [exact Hout|]. split; [apply nth_error_None, Hnew|].
    intros r f. apply nth_error_extend.
  - destruct (calc_delta_obj_runs op df rows h Hdf)
      as (out & news & Hrun & Hnew & Hout).
    exists out, (h ++ news),
      (outer_rows op rows (unique (map CostModel.mode rows))
         (unique (map CostModel.mode rows))).
    split; [exact Hrun|]. split; [apply calc_delta_Ok|].
    split; [exact Hout|]. split; [apply nth_error_None, Hnew|].
    intros r f. apply nth_error_extend.
Qed.

Example example_calc_delta_abs :
  calc_delta delta_abs example_model
  = Ok [Delta.mk "wasm" "native"
          [("cost_row", 1); ("cost_call", 3); ("cost_cached", -2)]].
Proof. vm_compute. reflexivity. Qed.

Example example_calc_delta_rel2 :
  calc_delta delta_rel2 example_model
  = Ok [Delta.mk "wasm" "native"
          [("cost_row", Ok (2 / 1)%Q); ("cost_call", Ok (3 / 1)%Q);
           ("cost_cached", Ok (5 / 7)%Q)]].
Proof. vm_compute. reflexivity. Qed.

Lemma regression_and_calc_delta_leave_frames_unchanged_witness :
  (exists out h' model,
     regression_obj (T := Z) exact_std example_nnls 0%nat
       [InputFrame example_df] = Ok (out, h') /\
     regression exact_std example_nnls example_df = Ok model /\
     nth_error h' out = Some (CostModelFrame model) /\
     nth_error [InputFrame (T := Z) example_df] out = None /\
     forall r f, nth_error [InputFrame example_df] r = Some f ->
                 nth_error h' r = Some f) /\
  (exists out h' delta,
     calc_delta_obj delta_abs 0%nat [CostModelFrame example_model]
     = Ok (out, h') /\
     calc_delta delta_abs example_model = Ok delta /\
     nth_error h' out = Some (DeltaFrame delta) /\
     nth_error [CostModelFrame (T := Z) example_model] out = None /\
     forall r f,
       nth_error [CostModelFrame example_model] r = Some f ->
       nth_error h' r = Some f).
Proof.
  split.
  - apply (proj1 (regression_and_calc_delta_leave_frames_unchanged
                    exact_std example_nnls delta_abs
                    [InputFrame example_df] 0%nat)).
    reflexivity.
  - apply (proj2 (regression_and_calc_delta_leave_frames_unchanged
                    exact_std example_nnls delta_abs
                    [CostModelFrame example_model] 0%nat)).
    reflexivity.
Defined.

(* ================================================================== *)
(** * Further properties *)

(* ------------------------------------------------------------------ *)
(** ** Which pairs [calc_delta] compares *)

Lemma row0_filter_model_unique (df : list CostModel.row) (m : string)
    (r r' : CostModel.row) :
  row0 (filter_model df m) = Ok r -> row0 (filter_model df m) = Ok r' ->
  r = r'.
Proof. congruence. Qed.

(** X10: [calc_delta] never compares a mode with itself, and never emits a pair
    in both directions. *)
Theorem calc_delta_irreflexive_asymmetric
    {T : Type} (op : Z -> Z -> T) (df : list CostModel.row) :
  exists out,
    calc_delta op df = Ok out /\
    (forall d, In d out -> Delta.baseline d <> Delta.mode d) /\
    (forall d d', In d out -> In d' out ->
       Delta.baseline d' = Delta.mode d ->
       Delta.mode d' <> Delta.baseline d).
Proof.
  eexists. split; [apply calc_delta_Ok|]. split.
  - intros d Hd E. apply outer_rows_In in Hd.
    destruct Hd as (m1 & m2 & row1 & row2 & _ & _ & E1 & E2 & Hlt & ->).
    simpl in E. subst m2.
    rewrite (row0_filter_model_unique _ _ _ _ E1 E2) in Hlt. lia.
  - intros d d' Hd Hd' E E'. apply outer_rows_In in Hd, Hd'.
    destruct Hd as (m1 & m2 & row1 & row2 & _ & _ & E1 & E2 & Hlt & ->).
    destruct Hd' as (m1' & m2' & row1' & row2' & _ & _ & E1' & E2' & Hlt'
                     & ->).
    simpl in E, E'. subst m1' m2'.
    rewrite (row0_filter_model_unique _ _ _ _ E1' E2) in Hlt'.
    rewrite (row0_filter_model_unique _ _ _ _ E2' E1) in Hlt'. lia.
Qed.

Lemma inner_rows_pairs {T U : Type} (op : Z -> Z -> T) (op' : Z -> Z -> U)
    (df : list CostModel.row) (m2 : string) (row2 : CostModel.row)
    (modes : list string) :
  map delta_pair (inner_rows op df m2 row2 modes)
  = map delta_pair (inner_rows op' df m2 row2 modes).
Proof.
  unfold inner_rows. induction modes as [|m1 modes IH]; [reflexivity|].
  cbn [flat_map]. rewrite !map_app, IH. f_equal.
  destruct (row0 (filter_model df m1)) as [row1|e]; [|reflexivity].
  destruct (CostModel.cost_row row1 >=? CostModel.cost_row row2);
    reflexivity.
Qed.

Lemma outer_rows_pairs {T U : Type} (op : Z -> Z -> T) (op' : Z -> Z -> U)
    (df : list CostModel.row) (all rest : list string) :
  map delta_pair (outer_rows op df all rest)
  = map delta_pair (outer_rows op' df all rest).
Proof.
  unfold outer_rows. induction rest as [|m2 rest IH]; [reflexivity|].
  cbn [flat_map]. rewrite !map_app, IH. f_equal.
  destruct (row0 (filter_model df m2)) as [row2|e]; [|reflexivity].
  apply inner_rows_pairs.
Qed.

(** X11: The rows [calc_delta] emits, as pairs [(mode, baseline)] in the
    order of the frame, do not depend on [op]: the tables [main] prints for its three
    operations line up row by row. *)
Theorem calc_delta_pairs_independent_of_op
    {T U : Type} (op : Z -> Z -> T) (op' : Z -> Z -> U)
    (df : list CostModel.row) :
  exists out out',
    calc_delta op df = Ok out /\ calc_delta op' df = Ok out' /\
    map delta_pair out = map delta_pair out'.
Proof.
  eexists. eexists. split; [apply calc_delta_Ok|].
  split; [apply calc_delta_Ok|]. apply outer_rows_pairs.
Qed.

(* ------------------------------------------------------------------ *)
(** ** The sign of the deltas of [cost_row] *)

Lemma delta_rel1_positive (a b : Z) :
  a < b -> exists q, delta_rel1 a b = Ok q /\ (0 < q)%Q.
Proof.
  intros Hlt. unfold delta_rel1.
  rewrite truediv_defined by apply py_max_one_ge.
  eexists. split; [reflexivity|].
  pose proof (py_max_one_ge (py_float a)) as Hmax.
  apply Qlt_shift_div_l; [lra|]. unfold py_float.
  rewrite Zlt_Qlt in Hlt. lra.
Qed.

Lemma delta_rel2_at_least_one (a b : Z) :
  0 <= a -> a < b -> exists q, delta_rel2 a b = Ok q /\ (1 <= q)%Q.
Proof.
  intros Ha Hlt. unfold delta_rel2.
  rewrite truediv_defined by apply py_max_one_ge.
  eexists. split; [reflexivity|].
  pose proof (py_max_one_ge (py_float a)) as Hmax.
  apply Qle_shift_div_l; [lra|].
  rewrite py_max_one_int. unfold py_float. rewrite Qmult_1_l.
  rewrite <- Zle_Qle. lia.
Qed.

(** X13: In the tables of the absolute and of the first relative delta, the
    [cost_row] cell of every row is strictly positive: a row is emitted only
    for a baseline with a strictly lower [cost_row]. *)
Theorem cost_row_deltas_positive (df : list CostModel.row) :
  exists out_abs out_rel1,
    calc_delta delta_abs df = Ok out_abs /\
    calc_delta delta_rel1 df = Ok out_rel1 /\
    (forall d, In d out_abs ->
       exists v, delta_get d "cost_row" = Some v /\ 0 < v) /\
    (forall d, In d out_rel1 ->
       exists q, delta_get d "cost_row" = Some (Ok q) /\ (0 < q)%Q).
Proof.
  eexists. eexists. split; [apply calc_delta_Ok|].
  split; [apply calc_delta_Ok|]. split.
  - intros d Hd. apply outer_rows_In in Hd.
    destruct Hd as (m1 & m2 & row1 & row2 & _ & _ & _ & _ & Hlt & ->).
    eexists. split; [reflexivity|]. unfold delta_abs. lia.
  - intros d Hd. apply outer_rows_In in Hd.
    destruct Hd as (m1 & m2 & row1 & row2 & _ & _ & _ & _ & Hlt & ->).
    destruct (delta_rel1_positive _ _ Hlt) as (q & Hq & Hpos).
    exists q. split; [|exact Hpos].
    unfold delta_get. simpl. rewrite Hq. reflexivity.
Qed.

(** X14: When no [cost_row] of the frame is negative, as in a frame [regression]
    returns, the [cost_row] cell of every row of the second relative delta is
    at least 1. *)
Theorem cost_row_ratio_at_least_one (df : list CostModel.row) :
  Forall (fun r => 0 <= CostModel.cost_row r) df ->
  exists out_rel2,
    calc_delta delta_rel2 df = Ok out_rel2 /\
    forall d, In d out_rel2 ->
      exists q, delta_get d "cost_row" = Some (Ok q) /\ (1 <= q)%Q.
Proof.
  intros Hnonneg. eexists. split; [apply calc_delta_Ok|].
  intros d Hd. apply outer_rows_In in Hd.
  destruct Hd as (m1 & m2 & row1 & row2 & _ & _ & E1 & _ & Hlt & ->).
  apply row0_Ok_mode in E1. destruct E1 as [Hin1 _].
  rewrite Forall_forall in Hnonneg.
  destruct (delta_rel2_at_least_one _ _ (Hnonneg _ Hin1) Hlt)
    as (q & Hq & Hone).
  exists q. split; [|exact Hone].
  unfold delta_get. simpl. rewrite Hq. reflexivity.
Qed.

Lemma cost_row_ratio_at_least_one_witness :
  exists out_rel2,
    calc_delta delta_rel2 example_model = Ok out_rel2 /\
    forall d, In d out_rel2 ->
      exists q, delta_get d "cost_row" = Some (Ok q) /\ (1 <= q)%Q.
Proof.
  apply (cost_row_ratio_at_least_one example_model).
  unfold example_model. repeat constructor; simpl; lia.
Defined.

(* ------------------------------------------------------------------ *)
(** ** The cheapest mode *)

Lemma sorted_head_never_improved {T : Type} (op : Z -> Z -> T)
    (first : CostModel.row) (rest : list CostModel.row) (d : Delta.row T) :
  StronglySorted le_cost_row (first :: rest) ->
  In d (outer_rows op (first :: rest)
          (unique (map CostModel.mode (first :: rest)))
          (unique (map CostModel.mode (first :: rest)))) ->
  Delta.mode d <> CostModel.mode first.
Proof.
  intros Hs Hd E. apply outer_rows_In in Hd.
  destruct Hd as (m1 & m2 & row1 & row2 & _ & _ & E1 & E2 & Hlt & ->).
  simpl in E. subst m2.
  unfold filter_model in E2. cbn [filter] in E2.
  rewrite String.eqb_refl in E2. injection E2 as <-.
  apply row0_Ok_mode in E1. destruct E1 as [Hin _].
  inversion Hs as [|? ? _ Hall]; subst.
  destruct Hin as [<-|Hin]; [lia|].
  rewrite Forall_forall in Hall. specialize (Hall _ Hin).
  unfold le_cost_row in Hall. lia.
Qed.

(** X15: The mode in the first row of the frame [regression] returns is never
    the [mode] of a delta row: no baseline has a strictly lower
    [cost_row]. *)
Theorem cheapest_mode_has_no_baseline
    {T : Type} (column_std : list Q -> Q)
    (nnls : list vec3 -> list Q -> vec3) (op : Z -> Z -> T)
    (df : list Input.row) (first : CostModel.row)
    (rest : list CostModel.row) :
  regression column_std nnls df = Ok (first :: rest) ->
  exists out,
    calc_delta op (first :: rest) = Ok out /\
    forall d, In d out -> Delta.mode d <> CostModel.mode first.
Proof.
  intros H. rewrite regression_Ok in H. injection H as H.
  pose proof (sort_by_cost_row_sorted (model_rows column_std nnls df)) as Hs.
  rewrite H in Hs.
  eexists. split; [apply calc_delta_Ok|].
  intros d Hd. exact (sorted_head_never_improved op _ _ _ Hs Hd).
Qed.

Lemma cheapest_mode_has_no_baseline_witness :
  exists out,
    calc_delta delta_abs example_model = Ok out /\
    forall d, In d out -> Delta.mode d <> "native".
Proof.
  apply (cheapest_mode_has_no_baseline exact_std example_nnls delta_abs
           example_df (CostModel.mk "native" 1 0 7 (Fin 1))
           [CostModel.mk "wasm" 2 3 5 (Fin 1)]).
  vm_compute. reflexivity.
Defined.

(* ------------------------------------------------------------------ *)
(** ** What the row of a mode depends on *)

(** X7: The row [regression] fits for a mode is a function of the observations
    of that mode alone: two frames with the same observations of [m] get the
    same row for [m], whatever else they hold. *)
Theorem regression_row_of_mode_is_local
    (column_std : list Q -> Q) (nnls : list vec3 -> list Q -> vec3)
    (df df' : list Input.row) (m : string) :
  input_of df m = input_of df' m ->
  exists rows rows',
    regression column_std nnls df = Ok rows /\
    regression column_std nnls df' = Ok rows' /\
    forall r r',
      In r rows -> In r' rows' ->
      CostModel.mode r = m -> CostModel.mode r' = m -> r = r'.
Proof.
  intros E. eexists. eexists.
  split; [apply regression_Ok|]. split; [apply regression_Ok|].
  intros r r' Hr Hr' Hm Hm'.
  apply regression_rows_In in Hr, Hr'.
  destruct Hr as [_ Hr], Hr' as [_ Hr'].
  rewrite Hr, Hr', Hm, Hm'.
  change (filter_mode (with_totalrows df) m) with (observations_of df m).
  change (filter_mode (with_totalrows df') m) with (observations_of df' m).
  rewrite !observations_of_input, E. reflexivity.
Qed.

Lemma regression_row_of_mode_is_local_witness :
  exists rows rows',
    regression exact_std example_nnls example_df = Ok rows /\
    regression exact_std example_nnls (input_of example_df "wasm")
    = Ok rows' /\
    forall r r',
      In r rows -> In r' rows' ->
      CostModel.mode r = "wasm" -> CostModel.mode r' = "wasm" -> r = r'.
Proof.
  apply (regression_row_of_mode_is_local exact_std example_nnls example_df
           (input_of example_df "wasm") "wasm").
  vm_compute. reflexivity.
Defined.

(* ------------------------------------------------------------------ *)
(** ** [Metric] and its values *)

(** X1: [Metric(str(m))] is [m]; [Metric(s)] returns a member only for its own
    value and raises [ValueError] for every other string; and the two members
    have different valgrind names. *)
Theorem Metric_value_round_trip :
  (forall m, Metric_of_value (Metric_value m) = Ok m) /\
  (forall s m, Metric_of_value s = Ok m -> s = Metric_value m) /\
  (forall s, (forall m, s <> Metric_value m) ->
             Metric_of_value s = Raise ValueError) /\
  (forall m m' name,
     valgrind_name m = Ok name -> valgrind_name m' = Ok name -> m = m').
Proof.
  split; [intros []; reflexivity|]. split; [|split].
  - intros s m. unfold Metric_of_value.
    destruct (String.eqb_spec s "cycles") as [->|_];
      [intros [= <-]; reflexivity|].
    destruct (String.eqb_spec s "instructions") as [->|_];
      [intros [= <-]; reflexivity | discriminate].
  - intros s Hs. unfold Metric_of_value.
    destruct (String.eqb_spec s "cycles") as [->|_];
      [destruct (Hs cycles eq_refl)|].
    destruct (String.eqb_spec s "instructions") as [->|_];
      [destruct (Hs instructions eq_refl) | reflexivity].
  - intros [] [] name H H'; cbv in H, H'; congruence.
Qed.

(* ------------------------------------------------------------------ *)
(** ** More on [parse_data] *)

Lemma Forall2_same_left {A B C D : Type} (R : A -> B -> Prop)
    (S : A -> C -> Prop) (f : B -> D) (g : C -> D)
    (la : list A) (lb : list B) (lc : list C) :
  (forall a b c, R a b -> S a c -> f b = g c) ->
  Forall2 R la lb -> Forall2 S la lc -> map f lb = map g lc.
Proof.
  intros Hfg H. revert lc.
  induction H as [|a b la lb Hab _ IH]; intros lc Hc;
    inversion Hc; subst; [reflexivity|].
  simpl. f_equal; [eapply Hfg; eassumption | apply IH; assumption].
Qed.

Lemma fn_matches_functional (fn m m' : string) :
  fn_matches fn m -> fn_matches fn m' -> m = m'.
Proof.
  rewrite <- !fn_re_match_spec. congruence.
Qed.

Lemma id_matches_functional (id g1 g2 g1' g2' : string) :
  id_matches id g1 g2 -> id_matches id g1' g2' -> g1 = g1' /\ g2 = g2'.
Proof.
  rewrite <- !id_re_match_spec. intros H H'.
  rewrite H in H'. injection H' as <- <-. auto.
Qed.

Section MoreParseDataFacts.

Variable json_loads : string -> result pyval.

Lemma line_observation_shape (metric metric' : Metric) (line : string)
    (o o' : Observation.row) :
  line_observation json_loads metric line o ->
  line_observation json_loads metric' line o' ->
  shape o = shape o'.
Proof.
  intros (data & fn & id & g1 & g2 & profile & Hdata & Hfn
          & Hm & Hid & Hg & _ & _ & Hbs & Hb & _)
         (data' & fn' & id' & g1' & g2' & profile' & Hdata'
          & Hfn' & Hm' & Hid' & Hg' & _ & _ & Hbs' & Hb' & _).
  assert (data' = data) by congruence. subst data'.
  apply getitem_has_item in Hfn, Hfn', Hid, Hid'.
  assert (fn' = fn) by congruence. subst fn'.
  assert (id' = id) by congruence. subst id'.
  destruct (id_matches_functional _ _ _ _ _ Hg Hg') as [<- <-].
  unfold shape.
  rewrite (fn_matches_functional _ _ _ Hm Hm'), Hbs, Hb, Hbs', Hb'.
  reflexivity.
Qed.

Lemma parse_lines_first_failure (vm : string) (pre post : list string)
    (line : string) (e : exn) (acc : list parsed_line) :
  Forall (fun l => exists r, parse_line json_loads vm l = Ok r) pre ->
  parse_line json_loads vm line = Raise e ->
  parse_lines json_loads vm (pre ++ line :: post) acc = Raise e.
Proof.
  intros Hpre Hline. revert acc.
  induction Hpre as [|l pre (r & Hr) _ IH]; intros acc.
  - cbn [app parse_lines]. rewrite Hline. reflexivity.
  - cbn [app parse_lines]. rewrite Hr. cbn [bind]. apply IH.
Qed.

End MoreParseDataFacts.

(** X2: Every mode in a frame [parse_data] returns is a non-empty string of
    lowercase ASCII letters. *)
Theorem parse_data_modes_lowercase
    (json_loads : string -> result pyval)
    (dtype_error : list parsed_line -> option exn)
    (file : list string) (metric : Metric) (df : list Observation.row) :
  parse_data json_loads dtype_error file metric = Ok df ->
  Forall (fun o => Observation.mode o <> "" /\
                   all_chars is_lower (Observation.mode o) = true) df.
Proof.
  intros H. apply parse_data_spec in H. destruct H as [H _].
  induction H as [|line o file df Hlo _ IH]; constructor; [|exact IH].
  destruct Hlo as (data & fn & id & g1 & g2 & profile
                   & _ & _ & (rest & _ & Hne & Hlow & _) & _).
  split; assumption.
Qed.

Lemma parse_data_modes_lowercase_witness :
  Forall (fun o => Observation.mode o <> "" /\
                   all_chars is_lower (Observation.mode o) = true)
    [Observation.mk "wasm" 3 1 (PInt 14);
     Observation.mk "native" 1 3 (PInt 10)].
Proof.
  apply (parse_data_modes_lowercase example_loads uniform_columns
           example_file cycles).
  vm_compute. reflexivity.
Defined.

(** X3: The metric decides the cost column only: the frames [parse_data]
    returns for one file under two metrics agree, row by row, on mode, batch
    size and batch count. *)
Theorem parse_data_metric_changes_cost_only
    (json_loads : string -> result pyval)
    (dtype_error : list parsed_line -> option exn) (file : list string)
    (metric metric' : Metric) (df df' : list Observation.row) :
  parse_data json_loads dtype_error file metric = Ok df ->
  parse_data json_loads dtype_error file metric' = Ok df' ->
  map shape df = map shape df'.
Proof.
  intros H H'. apply parse_data_spec in H, H'.
  destruct H as [H _], H' as [H' _].
  eapply Forall2_same_left; [|exact H | exact H'].
  intros line o o'. apply line_observation_shape.
Qed.

Lemma parse_data_metric_changes_cost_only_witness :
  map shape [Observation.mk "wasm" 3 1 (PInt 14);
             Observation.mk "native" 1 3 (PInt 10)]
  = map shape [Observation.mk "wasm" 3 1 (PInt 9);
               Observation.mk "native" 1 3 (PInt 6)].
Proof.
  apply (parse_data_metric_changes_cost_only example_loads uniform_columns
           example_file cycles instructions);
    vm_compute; reflexivity.
Defined.

(** X5: The exception of [parse_data] is the one of the first line that fails:
    when the lines before it parse, whatever follows is not looked at. *)
Theorem parse_data_raises_first_failure
    (json_loads : string -> result pyval)
    (dtype_error : list parsed_line -> option exn)
    (pre post : list string) (line : string) (metric : Metric)
    (valgrind_metric : string) (e : exn) :
  valgrind_name metric = Ok valgrind_metric ->
  Forall (fun l => exists r,
            parse_line json_loads valgrind_metric l = Ok r) pre ->
  parse_line json_loads valgrind_metric line = Raise e ->
  parse_data json_loads dtype_error (pre ++ line :: post) metric = Raise e.
Proof.
  intros Hvm Hpre Hline. unfold parse_data. rewrite Hvm. cbn [bind].
  rewrite (parse_lines_first_failure json_loads _ _ _ _ _ _ Hpre Hline).
  reflexivity.
Qed.

Lemma parse_data_raises_first_failure_witness :
  parse_data example_loads uniform_columns
    (["line wasm 3x1"] ++ "line upper case" :: ["not json"]) cycles
  = Raise AssertionError.
Proof.
  apply (parse_data_raises_first_failure example_loads uniform_columns
           ["line wasm 3x1"] ["not json"] "line upper case" cycles
           "EstimatedCycles" AssertionError).
  - reflexivity.
  - repeat constructor. eexists. vm_compute. reflexivity.
  - vm_compute. reflexivity.
Defined.

(* ------------------------------------------------------------------ *)
(** ** The exceptions of a malformed line *)

(** X6: What the loop body of [parse_data] raises on a line: the exception of
    [json.loads] if the line does not decode; [KeyError] if the record has no
    [function_name]; [AssertionError] if the function name or the id does
    not match its pattern; [ValueError] if [profiles] is a list that does
    not have exactly one element. *)
Theorem parse_line_exception_kinds
    (json_loads : string -> result pyval) (valgrind_metric line : string) :
  (forall e,
     json_loads line = Raise e ->
     parse_line json_loads valgrind_metric line = Raise e) /\
  (forall d,
     json_loads line = Ok (PDict d) ->
     dict_get d "function_name" = None ->
     parse_line json_loads valgrind_metric line = Raise KeyError) /\
  (forall data fn,
     json_loads line = Ok data ->
     getitem data "function_name" = Ok (PStr fn) ->
     (forall m, ~ fn_matches fn m) ->
     parse_line json_loads valgrind_metric line = Raise AssertionError) /\
  (forall data fn m id,
     json_loads line = Ok data ->
     getitem data "function_name" = Ok (PStr fn) -> fn_matches fn m ->
     getitem data "id" = Ok (PStr id) ->
     (forall g1 g2, ~ id_matches id g1 g2) ->
     parse_line json_loads valgrind_metric line = Raise AssertionError) /\
  (forall data fn m id g1 g2 profiles,
     json_loads line = Ok data ->
     getitem data "function_name" = Ok (PStr fn) -> fn_matches fn m ->
     getitem data "id" = Ok (PStr id) -> id_matches id g1 g2 ->
     getitem data "profiles" = Ok (PList profiles) ->
     List.length profiles <> 1%nat ->
     parse_line json_loads valgrind_metric line = Raise ValueError).
Proof.
  unfold parse_line. repeat split.
  - intros e ->. reflexivity.
  - intros d -> Hd. cbn [bind getitem]. rewrite Hd. reflexivity.
  - intros data fn Hdata Hfn Hno. rewrite Hdata. cbn [bind].
    rewrite Hfn. cbn [bind re_match].
    destruct (fn_re_match fn) as [m|] eqn:E; [|reflexivity].
    apply fn_re_match_spec in E. destruct (Hno _ E).
  - intros data fn m id Hdata Hfn Hm Hid Hno. rewrite Hdata. cbn [bind].
    rewrite Hfn. cbn [bind re_match].
    apply fn_re_match_spec in Hm. rewrite Hm. cbn [bind assert_some].
    rewrite Hid. cbn [bind re_match].
    destruct (id_re_match id) as [[g1 g2]|] eqn:E; [|reflexivity].
    apply id_re_match_spec in E. destruct (Hno _ _ E).
  - intros data fn m id g1 g2 profiles Hdata Hfn Hm Hid Hg Hp Hlen.
    rewrite Hdata. cbn [bind]. rewrite Hfn. cbn [bind re_match].
    apply fn_re_match_spec in Hm. rewrite Hm. cbn [bind assert_some].
    rewrite Hid. cbn [bind re_match].
    apply id_re_match_spec in Hg. rewrite Hg. cbn [bind assert_some fst snd].
    unfold py_int_of_str.
    destruct (max_str_digits <? String.length g1)%nat; [reflexivity|].
    cbn [bind].
    destruct (max_str_digits <? String.length g2)%nat; [reflexivity|].
    cbn [bind]. rewrite Hp. cbn [bind].
    destruct profiles as [|p [|p' profiles]]; try reflexivity.
    destruct (Hlen eq_refl).
Qed.

Lemma parse_line_exception_kinds_witness :
  parse_line example_loads "EstimatedCycles" "line upper case"
  = Raise AssertionError.
Proof.
  apply (proj1 (proj2 (proj2 (parse_line_exception_kinds example_loads
                                "EstimatedCycles" "line upper case")))
           (example_record "bench_WASM" "batchsize_3_batches_1" 14 9)
           "bench_WASM").
  - reflexivity.
  - reflexivity.
  - intros m H. apply fn_re_match_spec in H. discriminate H.
Defined.

(* ------------------------------------------------------------------ *)
(** ** How many rows [calc_delta] emits *)

Lemma NoDup_map_injective {A B : Type} (f : A -> B) (l : list A) :
  (forall x y, f x = f y -> x = y) -> NoDup l -> NoDup (map f l).
Proof.
  intros Hf. induction 1 as [|x l Hx _ IH]; simpl; constructor; [|exact IH].
  intros Hin. apply in_map_iff in Hin. destruct Hin as (y & E & Hy).
  apply Hf in E. subst y. exact (Hx Hy).
Qed.

Section DeltaPairs.

Context {T : Type}.
Variable op : Z -> Z -> T.
Variable df : list CostModel.row.

Lemma inner_pairs_In (m2 : string) (row2 : CostModel.row)
    (modes : list string) (p : string * string) :
  In p (map delta_pair (inner_rows op df m2 row2 modes)) ->
  fst p = m2 /\ In (snd p) modes.
Proof.
  intros H. apply in_map_iff in H. destruct H as (d & <- & Hd).
  apply inner_rows_In in Hd.
  destruct Hd as (m1 & row1 & Hm1 & _ & _ & ->). simpl. auto.
Qed.

Lemma inner_pairs_NoDup (m2 : string) (row2 : CostModel.row)
    (modes : list string) :
  NoDup modes -> NoDup (map delta_pair (inner_rows op df m2 row2 modes)).
Proof.
  induction 1 as [|m1 modes Hm1 _ IH]; [constructor|].
  unfold inner_rows. cbn [flat_map]. rewrite map_app.
  apply NoDup_app; [|exact IH|].
  - destruct (row0 (filter_model df m1)) as [row1|e]; [|constructor].
    destruct (CostModel.cost_row row1 >=? CostModel.cost_row row2);
      repeat constructor. intros [].
  - intros p Hp Hp'. apply inner_pairs_In in Hp'. destruct Hp' as [_ Hp'].
    destruct (row0 (filter_model df m1)) as [row1|e]; [|destruct Hp].
    destruct (CostModel.cost_row row1 >=? CostModel.cost_row row2);
      [destruct Hp|].
    destruct Hp as [<-|[]]. exact (Hm1 Hp').
Qed.

Lemma outer_pairs_In (all rest : list string) (p : string * string) :
  In p (map delta_pair (outer_rows op df all rest)) ->
  In (fst p) rest /\ In (snd p) all /\ fst p <> snd p /\
  ~ In (snd p, fst p) (map delta_pair (outer_rows op df all rest)).
Proof.
  intros H. apply in_map_iff in H. destruct H as (d & <- & Hd).
  apply outer_rows_In in Hd.
  destruct Hd as (m1 & m2 & row1 & row2 & Hm1 & Hm2 & E1 & E2 & Hlt & ->).
  simpl. repeat split; try assumption.
  - intros <-. rewrite (row0_filter_model_unique _ _ _ _ E1 E2) in Hlt. lia.
  - intros H. apply in_map_iff in H. destruct H as (d' & E & Hd').
    apply outer_rows_In in Hd'.
    destruct Hd' as (m1' & m2' & row1' & row2' & _ & _ & E1' & E2' & Hlt'
                     & ->).
    injection E as -> ->.
    rewrite (row0_filter_model_unique _ _ _ _ E1' E2) in Hlt'.
    rewrite (row0_filter_model_unique _ _ _ _ E2' E1) in Hlt'. lia.
Qed.

Lemma outer_pairs_NoDup (all rest : list string) :
  NoDup all -> NoDup rest ->
  NoDup (map delta_pair (outer_rows op df all rest)).
Proof.
  intros Hall. induction 1 as [|m2 rest Hm2 _ IH]; [constructor|].
  unfold outer_rows. cbn [flat_map]. rewrite map_app.
  apply NoDup_app; [|exact IH|].
  - destruct (row0 (filter_model df m2)) as [row2|e]; [|constructor].
    apply inner_pairs_NoDup, Hall.
  - intros p Hp Hp'. apply outer_pairs_In in Hp'. destruct Hp' as [Hp' _].
    destruct (row0 (filter_model df m2)) as [row2|e]; [|destruct Hp].
    apply inner_pairs_In in Hp. destruct Hp as [E _].
    rewrite E in Hp'. exact (Hm2 Hp').
Qed.

End DeltaPairs.

(** X12: [calc_delta] emits at most one row per pair [(mode, baseline)], and for
    a frame with [n] distinct modes at most [n * (n - 1) / 2] rows, stated
    as [2 * rows + n <= n * n]. *)
Theorem calc_delta_row_count
    {T : Type} (op : Z -> Z -> T) (df : list CostModel.row) :
  exists out,
    calc_delta op df = Ok out /\
    NoDup (map delta_pair out) /\
    (2 * List.length out + List.length (unique (map CostModel.mode df))
     <= List.length (unique (map CostModel.mode df))
        * List.length (unique (map CostModel.mode df)))%nat.
Proof.
  eexists. split; [apply calc_delta_Ok|].
  set (modes := unique (map CostModel.mode df)).
  set (out := outer_rows op df modes modes).
  assert (Hmodes : NoDup modes) by apply unique_NoDup.
  assert (Hnodup : NoDup (map delta_pair out))
    by (apply outer_pairs_NoDup; assumption).
  split; [exact Hnodup|].
  set (P := map delta_pair out).
  set (swap := fun p : string * string => (snd p, fst p)).
  set (diag := map (fun m : string => (m, m)) modes).
  assert (Hlen : (List.length (P ++ map swap P ++ diag)
                  <= List.length (list_prod modes modes))%nat).
  { apply NoDup_incl_length.
    - apply NoDup_app; [exact Hnodup| |].
      + apply NoDup_app.
        * apply NoDup_map_injective; [|exact Hnodup].
          intros [a b] [a' b'] [= -> ->]. reflexivity.
        * apply NoDup_map_injective; [|exact Hmodes].
          intros a b [= ->]. reflexivity.
        * intros p Hp Hd. apply in_map_iff in Hp, Hd.
          destruct Hp as (q & <- & Hq), Hd as (m & E & _).
          apply outer_pairs_In in Hq. destruct Hq as (_ & _ & Hne & _).
          unfold swap in E. injection E as E1 E2. congruence.
      + intros p Hp Hin. apply in_app_or in Hin. destruct Hin as [Hin|Hin].
        * apply in_map_iff in Hin. destruct Hin as (q & <- & Hq).
          apply outer_pairs_In in Hq. destruct Hq as (_ & _ & _ & Hq).
          apply Hq. unfold swap in Hp. simpl. exact Hp.
        * apply in_map_iff in Hin. destruct Hin as (m & <- & _).
          apply outer_pairs_In in Hp. destruct Hp as (_ & _ & Hne & _).
          apply Hne. reflexivity.
    - intros p Hin. apply in_app_or in Hin.
      destruct Hin as [Hin|Hin]; [|apply in_app_or in Hin;
                                    destruct Hin as [Hin|Hin]].
      + apply outer_pairs_In in Hin. destruct Hin as (H1 & H2 & _).
        destruct p as [a b]. apply in_prod; assumption.
      + apply in_map_iff in Hin. destruct Hin as (q & <- & Hq).
        apply outer_pairs_In in Hq. destruct Hq as (H1 & H2 & _).
        apply in_prod; assumption.
      + apply in_map_iff in Hin. destruct Hin as (m & <- & Hm).
        apply in_prod; assumption. }
  rewrite !length_app, length_prod in Hlen.
  unfold P, diag in Hlen. rewrite !length_map in Hlen.
  fold modes. lia.
Qed.
